(** * Canvas SDK LLM clients

    A shallow embedding of [canvas_sdk/clients/llms/libraries]: the payload
    builders and response normalisers of the Anthropic and Google clients
    ([llm_anthropic.py], [llm_google.py]), the turn store and retry driver
    of their base class, and the OpenAI client.

    Python values are embedded as follows: [str] as [string], [bytes] as
    [list byte], [int] as [Z], [list] as [list], a [dict] decoded from JSON
    as an association list, a raised exception as the [Raise] branch of
    [Result].  A method that mutates [self.file_urls] returns the queue it
    leaves behind next to its result. *)

From Stdlib Require Import ZArith List String Ascii Bool Lia PeanoNat.
From Stdlib Require Import Decimal DecimalString.

Set Warnings "-register-all".
Import ListNotations.

Open Scope string_scope.
Open Scope list_scope.

(** ** The Python run time *)

Module Py.

(** The exceptions the clients can meet. *)
Inductive Exn : Type :=
| KeyError
| IndexError
| AttributeError
| TypeError
| ValueError
| JSONDecodeError
| UnicodeDecodeError
| BinasciiError.

Inductive Result (A : Type) : Type :=
| Ok (a : A)
| Raise (e : Exn).

Arguments Ok {A} a.
Arguments Raise {A} e.

Definition bind {A B : Type} (r : Result A) (k : A -> Result B) : Result B :=
  match r with
  | Ok a => k a
  | Raise e => Raise e
  end.

Definition returns {A : Type} (r : Result A) : bool :=
  match r with
  | Ok _ => true
  | Raise _ => false
  end.

Definition bytes : Type := list Byte.byte.

(** The objects [json.loads] produces (number literals with a fraction or
    an exponent, which decode to [float], are left out). *)
Inductive Obj : Type :=
| PyNone
| PyBool (b : bool)
| PyInt (z : Z)
| PyStr (s : string)
| PyList (l : list Obj)
| PyDict (items : list (string * Obj)).

(** [d.get(key)] on the items of a dict: keys are unique, the first
    match is the only one. *)
Fixpoint lookup (key : string) (items : list (string * Obj)) : option Obj :=
  match items with
  | [] => None
  | (k, v) :: rest => if String.eqb k key then Some v else lookup key rest
  end.

(** [o.get(key, default)]: only a dict has the method. *)
Definition get (o : Obj) (key : string) (default : Obj) : Result Obj :=
  match o with
  | PyDict items =>
      match lookup key items with
      | Some v => Ok v
      | None => Ok default
      end
  | _ => Raise AttributeError
  end.

(** [o[0]]. *)
Definition item0 (o : Obj) : Result Obj :=
  match o with
  | PyList [] => Raise IndexError
  | PyList (x :: _) => Ok x
  | PyStr EmptyString => Raise IndexError
  | PyStr (String c _) => Ok (PyStr (String c EmptyString))
  | PyDict _ => Raise KeyError
  | PyNone | PyBool _ | PyInt _ => Raise TypeError
  end.

Definition truthy (o : Obj) : bool :=
  match o with
  | PyNone => false
  | PyBool b => b
  | PyInt z => negb (Z.eqb z 0)
  | PyStr s => negb (String.eqb s "")
  | PyList l => match l with [] => false | _ => true end
  | PyDict items => match items with [] => false | _ => true end
  end.

(** [a or b]. *)
Definition or (a b : Obj) : Obj := if truthy a then a else b.

Definition as_int (o : Obj) : option Z :=
  match o with
  | PyInt z => Some z
  | PyBool b => Some (if b then 1%Z else 0%Z)
  | _ => None
  end.

(** [a + b]. *)
Definition add (a b : Obj) : Result Obj :=
  match as_int a, as_int b with
  | Some x, Some y => Ok (PyInt (x + y))
  | _, _ =>
      match a, b with
      | PyStr s, PyStr t => Ok (PyStr (s ++ t))
      | PyList l, PyList m => Ok (PyList (l ++ m))
      | _, _ => Raise TypeError
      end
  end.

(** [l[-1]] behind the guard [l and ...]. *)
Fixpoint last {A : Type} (l : list A) : option A :=
  match l with
  | [] => None
  | [a] => Some a
  | _ :: rest => last rest
  end.

Definition newline : string := String "010"%char EmptyString.

(** [sep.join(lines)]. *)
Definition join (sep : string) (lines : list string) : string :=
  String.concat sep lines.

(** [str(n)] for a count. *)
Definition str_of_nat (n : nat) : string :=
  NilEmpty.string_of_uint (Nat.to_uint n).

(** The members of [http.HTTPStatus]. *)
Definition HTTPStatus_values : list Z :=
  [100; 101; 102; 103;
   200; 201; 202; 203; 204; 205; 206; 207; 208; 226;
   300; 301; 302; 303; 304; 305; 307; 308;
   400; 401; 402; 403; 404; 405; 406; 407; 408; 409; 410; 411; 412; 413;
   414; 415; 416; 417; 418; 421; 422; 423; 424; 425; 426; 428; 429; 431;
   451;
   500; 501; 502; 503; 504; 505; 506; 507; 508; 510; 511]%Z.

Definition is_HTTPStatus (code : Z) : bool :=
  existsb (Z.eqb code) HTTPStatus_values.

(** [HTTPStatus(code)]: the enum lookup by value. *)
Definition HTTPStatus (code : Z) : Result Z :=
  if is_HTTPStatus code then Ok code else Raise ValueError.

Definition OK : Z := 200%Z.
Definition BAD_REQUEST : Z := 400%Z.
Definition TOO_MANY_REQUESTS : Z := 429%Z.

End Py.

Import Py.

Notation "x <- c ;; k" := (Py.bind c (fun x => k))
  (at level 61, c at next level, right associativity).

Notation "' pat <- c ;; k" := (Py.bind c (fun x => match x with pat => k end))
  (at level 61, pat pattern, c at next level, right associativity).

(** ** Structures and constants *)

(** Modelled from the spec: [constants/file_type.py] and [structures/] are
    not part of the sources.  The kinds of a file reference are pdf, image,
    text and other; the structures below are those of section 3, with the
    field names the clients and their tests use. *)
Inductive FileType : Type := PDF | IMAGE | TEXT | OTHER.

Module LlmTurn.
Record t : Type := Make { role : string; text : list string }.
End LlmTurn.

Module LlmFileUrl.
Record t : Type := Make { url : string; type : FileType }.
End LlmFileUrl.

Module FileContent.
Record t : Type := Make { mime_type : string; content : bytes; size : Z }.
End FileContent.

Module LlmTokens.
Record t : Type := Make { prompt : Obj; generated : Obj }.
End LlmTokens.

Module LlmResponse.
Record t : Type := Make { code : Z; response : Obj; tokens : LlmTokens.t }.
End LlmResponse.

Module LlmSettings.
Record t : Type := Make { api_key : string; model : string; extra : list (string * Obj) }.

(** Modelled from the spec: [structures/settings] is not part of the
    sources; [toRequestDict] gives the base fields first, the vendor's
    own fields after them. *)
Definition to_dict (s : t) : list (string * Obj) :=
  ("model", PyStr (model s)) :: extra s.
End LlmSettings.

(** What a call that pops from [self.file_urls] yields: the value it returns
    or the exception it raises, the queue afterwards and the references
    handed to [base64_encoded_content_of], in call order. *)
Record Run (A : Type) : Type := MkRun {
  value : Result A;
  file_urls_after : list LlmFileUrl.t;
  fetched : list LlmFileUrl.t
}.

Arguments MkRun {A} value file_urls_after fetched.
Arguments value {A} r.
Arguments file_urls_after {A} r.
Arguments fetched {A} r.

(** The transport: a reply of [Http(url).post], or the
    [requests.RequestException] it raises. *)
Module Http.
Record Response : Type := MkResponse { status_code : Z; text : string }.

(** [str(e)] and [e.response] when it is a [models.Response]. *)
Record RequestException : Type := MkException {
  description : string;
  response : option Response
}.

Inductive Outcome : Type :=
| Replied (r : Response)
| Failed (e : RequestException).
End Http.

(** ** The base client *)

Module LlmBase.

(** Modelled from the spec: the three roles of a turn, spelled as the tests
    of the base class spell them, and the attributes of a client: its
    settings, its turns and its queue of file references. *)
Definition ROLE_SYSTEM : string := "system".
Definition ROLE_USER : string := "user".
Definition ROLE_MODEL : string := "model".

Record t : Type := Make {
  settings : LlmSettings.t;
  prompts : list LlmTurn.t;
  file_urls : list LlmFileUrl.t
}.

Definition with_prompts (self : t) (prompts' : list LlmTurn.t) : t :=
  Make (settings self) prompts' (file_urls self).

Definition with_file_urls (self : t) (file_urls' : list LlmFileUrl.t) : t :=
  Make (settings self) (prompts self) file_urls'.

(** Modelled from the spec: [llm_base.py] is not part of the sources.
    [setSystemPrompt]: a system turn at position 0 has its text replaced
    in place; otherwise a new system turn is inserted at index 0. *)
Definition set_system_prompt (self : t) (text : list string) : t :=
  let prompt := LlmTurn.Make ROLE_SYSTEM text in
  match prompts self with
  | first :: rest =>
      if LlmTurn.role first =? ROLE_SYSTEM
      then with_prompts self (prompt :: rest)
      else with_prompts self (prompt :: first :: rest)
  | [] => with_prompts self [prompt]
  end.

(** Modelled from the spec: [setUserPrompt] appends a user turn. *)
Definition set_user_prompt (self : t) (text : list string) : t :=
  with_prompts self (prompts self ++ [LlmTurn.Make ROLE_USER text]).

(** Modelled from the spec: [setModelPrompt] appends a model turn. *)
Definition set_model_prompt (self : t) (text : list string) : t :=
  with_prompts self (prompts self ++ [LlmTurn.Make ROLE_MODEL text]).

(** Modelled from the spec: [addPrompt] routes a turn by its role; a role
    outside system, user and model is ignored. *)
Definition add_prompt (self : t) (prompt : LlmTurn.t) : t :=
  if LlmTurn.role prompt =? ROLE_SYSTEM
  then set_system_prompt self (LlmTurn.text prompt)
  else if LlmTurn.role prompt =? ROLE_USER
  then set_user_prompt self (LlmTurn.text prompt)
  else if LlmTurn.role prompt =? ROLE_MODEL
  then set_model_prompt self (LlmTurn.text prompt)
  else self.

(** Modelled from the spec: [resetPrompts] clears all turns. *)
Definition reset_prompts (self : t) : t := with_prompts self [].

(** Modelled from the spec: [addFileReference] appends to the queue. *)
Definition add_url_file (self : t) (file_url : LlmFileUrl.t) : t :=
  with_file_urls self (file_urls self ++ [file_url]).

Definition known_role (role : string) : bool :=
  (role =? ROLE_SYSTEM) || (role =? ROLE_USER) || (role =? ROLE_MODEL).

(** The retry driver runs a client's [request] against a world [W] (the
    client and the remote service); each call answers and moves the
    world on. *)
Section RetryDriver.

Variable W : Type.
Variable request : W -> LlmResponse.t * W.

(** Modelled from the spec: the result appended when every attempt
    missed the stopping status. *)
Definition exhausted (attempts : nat) : LlmResponse.t :=
  LlmResponse.Make TOO_MANY_REQUESTS
    (PyStr ("Http error: max attempts (" ++ str_of_nat attempts ++ ") exceeded."))
    (LlmTokens.Make (PyInt 0) (PyInt 0)).

(** Modelled from the spec: the attempts still to make, the results so
    far; stops on status 200 only. *)
Fixpoint attempt_loop (attempts remaining : nat) (w : W)
    (result : list LlmResponse.t) : list LlmResponse.t * W :=
  match remaining with
  | O => (result ++ [exhausted attempts], w)
  | S remaining' =>
      let (r, w') := request w in
      if (LlmResponse.code r =? OK)%Z
      then (result ++ [r], w')
      else attempt_loop attempts remaining' w' (result ++ [r])
  end.

(** Modelled from the spec: [attemptRequests(maxAttempts)]. *)
Definition attempt_requests (attempts : nat) (w : W) : list LlmResponse.t * W :=
  attempt_loop attempts attempts w [].

(** The world after a number of calls. *)
Fixpoint world_after (calls : nat) (w : W) : W :=
  match calls with
  | O => w
  | S calls' => world_after calls' (snd (request w))
  end.

(** The answer of the [k]-th call, counted from 0. *)
Definition nth_response (w : W) (k : nat) : LlmResponse.t :=
  fst (request (world_after k w)).

End RetryDriver.

Arguments attempt_loop {W} request attempts remaining w result.
Arguments attempt_requests {W} request attempts w.
Arguments world_after {W} request calls w.
Arguments nth_response {W} request w k.

End LlmBase.

(** ** The Anthropic client ([llm_anthropic.py]) *)

Module LlmAnthropic.

(** The content blocks [to_dict] emits. *)
Inductive Block : Type :=
| Text (text : string)          (* type text *)
| DocumentUrl (url : string)    (* type document, source of type url *)
| ImageUrl (url : string)       (* type image, source of type url *)
| DocumentText (data : string). (* type document, source of type text, text/plain *)

Record Message : Type := MkMessage { role : string; content : list Block }.

(** [settings.to_dict() | {"messages": messages}]: the right operand wins
    the key. *)
Record Payload : Type := MkPayload {
  fields : list (string * Obj);
  messages : list Message
}.

Section Client.

(** The collaborators: the attachment resolver of the base class, the
    codecs of the standard library and the transport. *)
Variable base64_encoded_content_of : LlmFileUrl.t -> FileContent.t.
Variable standard_b64decode : bytes -> Result bytes.
Variable decode_utf8 : bytes -> Result string.
Variable json_loads : string -> Result Obj.
Variable Http_post : string -> list (string * string) -> Payload -> Http.Outcome.

(** The [roles] dict and its lookup [roles[key]]. *)
Definition roles (key : string) : Result string :=
  if key =? LlmBase.ROLE_SYSTEM then Ok "user"
  else if key =? LlmBase.ROLE_USER then Ok "user"
  else if key =? LlmBase.ROLE_MODEL then Ok "assistant"
  else Raise KeyError.

(** One round of the loop over [self.prompts]. *)
Definition add_part (messages : list Message) (prompt : LlmTurn.t)
    : Result (list Message) :=
  role <- roles (LlmTurn.role prompt) ;;
  let part := Text (join newline (LlmTurn.text prompt)) in
  match last messages with
  | Some m =>
      if LlmAnthropic.role m =? role
      then Ok (removelast messages ++ [MkMessage (LlmAnthropic.role m) (content m ++ [part])])
      else Ok (messages ++ [MkMessage role [part]])
  | None => Ok (messages ++ [MkMessage role [part]])
  end.

Fixpoint build_messages (prompts : list LlmTurn.t) (messages : list Message)
    : Result (list Message) :=
  match prompts with
  | [] => Ok messages
  | prompt :: rest =>
      messages' <- add_part messages prompt ;;
      build_messages rest messages'
  end.

(** The block of one popped reference, [None] for an empty [item], and
    the references fetched for it. *)
Definition item_of (file_url : LlmFileUrl.t)
    : Result (option Block) * list LlmFileUrl.t :=
  match LlmFileUrl.type file_url with
  | PDF => (Ok (Some (DocumentUrl (LlmFileUrl.url file_url))), [])
  | IMAGE => (Ok (Some (ImageUrl (LlmFileUrl.url file_url))), [])
  | TEXT =>
      let file_content := base64_encoded_content_of file_url in
      (raw <- standard_b64decode (FileContent.content file_content) ;;
       data <- decode_utf8 raw ;;
       Ok (Some (DocumentText data)),
       [file_url])
  | OTHER => (Ok None, [])
  end.

(** The [while] loop: each round pops the head of the queue; [blocks]
    is the content of the last message. *)
Fixpoint embed_files (file_urls : list LlmFileUrl.t) (blocks : list Block)
    : Run (list Block) :=
  match file_urls with
  | [] => MkRun (Ok blocks) [] []
  | file_url :: rest =>
      match item_of file_url with
      | (Raise e, calls) => MkRun (Raise e) rest calls
      | (Ok item, calls) =>
          let blocks' := match item with
                         | Some b => blocks ++ [b]
                         | None => blocks
                         end in
          let run := embed_files rest blocks' in
          MkRun (value run) (file_urls_after run) (calls ++ fetched run)
      end
  end.

Definition to_dict (self : LlmBase.t) : Run Payload :=
  let file_urls := LlmBase.file_urls self in
  let fields := LlmSettings.to_dict (LlmBase.settings self) in
  match build_messages (LlmBase.prompts self) [] with
  | Raise e => MkRun (Raise e) file_urls []
  | Ok messages =>
      match file_urls, last messages with
      | _ :: _, Some m =>
          if LlmAnthropic.role m =? "user"
          then
            let run := embed_files file_urls (content m) in
            MkRun (blocks <- value run ;;
                   Ok (MkPayload fields
                         (removelast messages ++ [MkMessage (LlmAnthropic.role m) blocks])))
                  (file_urls_after run) (fetched run)
          else MkRun (Ok (MkPayload fields messages)) file_urls []
      | _, _ => MkRun (Ok (MkPayload fields messages)) file_urls []
      end
  end.

Definition url : string := "https://api.anthropic.com/v1/messages".

Definition headers (self : LlmBase.t) : list (string * string) :=
  [("Content-Type", "application/json");
   ("anthropic-version", "2023-06-01");
   ("x-api-key", LlmSettings.api_key (LlmBase.settings self))].

Definition no_tokens : LlmTokens.t := LlmTokens.Make (PyInt 0) (PyInt 0).

(** The body of the [try]: [code], [response] and [tokens] when it
    ends. *)
Definition on_reply (request : Http.Response) : Result (Z * Obj * LlmTokens.t) :=
  let code := Http.status_code request in
  if (code =? OK)%Z
  then
    content <- json_loads (Http.text request) ;;
    blocks <- get content "content" (PyList [PyDict []]) ;;
    block <- item0 blocks ;;
    response <- get block "text" (PyStr "") ;;
    usage <- get content "usage" (PyDict []) ;;
    input_tokens <- get usage "input_tokens" PyNone ;;
    output_tokens <- get usage "output_tokens" PyNone ;;
    Ok (code, response,
        LlmTokens.Make (or input_tokens (PyInt 0)) (or output_tokens (PyInt 0)))
  else Ok (code, PyStr (Http.text request), no_tokens).

(** The [except] clause. *)
Definition on_exception (e : Http.RequestException) : Z * Obj * LlmTokens.t :=
  match Http.response e with
  | Some r => (Http.status_code r, PyStr (Http.text r), no_tokens)
  | None => (BAD_REQUEST, PyStr ("Request failed: " ++ Http.description e), no_tokens)
  end.

(** From the answer of the transport to the returned [LlmResponse]. *)
Definition respond (outcome : Http.Outcome) : Result LlmResponse.t :=
  '(code, response, tokens) <-
    match outcome with
    | Http.Replied request => on_reply request
    | Http.Failed e => Ok (on_exception e)
    end ;;
  code' <- HTTPStatus code ;;
  Ok (LlmResponse.Make code' response tokens).

Definition request (self : LlmBase.t) : Run LlmResponse.t :=
  let run := to_dict self in
  MkRun (data <- value run ;; respond (Http_post url (headers self) data))
        (file_urls_after run) (fetched run).

End Client.

End LlmAnthropic.

(** ** The Google client ([llm_google.py]) *)

Module LlmGoogle.

(** The parts [to_dict] emits. *)
Inductive Part : Type :=
| Text (text : string)                       (* text *)
| InlineData (mime_type : string) (data : string). (* inline_data *)

Record Content : Type := MkContent { role : string; parts : list Part }.

(** [settings.to_dict() | {"contents": contents}]. *)
Record Payload : Type := MkPayload {
  fields : list (string * Obj);
  contents : list Content
}.

Definition max_size : Z := (10 * 1024 * 1024)%Z.

Section Client.

Variable base64_encoded_content_of : LlmFileUrl.t -> FileContent.t.
Variable decode_utf8 : bytes -> Result string.
Variable json_loads : string -> Result Obj.
Variable Http_post : string -> list (string * string) -> Payload -> Http.Outcome.

Definition roles (key : string) : Result string :=
  if key =? LlmBase.ROLE_SYSTEM then Ok "user"
  else if key =? LlmBase.ROLE_USER then Ok "user"
  else if key =? LlmBase.ROLE_MODEL then Ok "model"
  else Raise KeyError.

(** One round of the loop over [self.prompts]. *)
Definition add_part (contents : list Content) (prompt : LlmTurn.t)
    : Result (list Content) :=
  role <- roles (LlmTurn.role prompt) ;;
  let part := Text (join newline (LlmTurn.text prompt)) in
  match last contents with
  | Some c =>
      if LlmGoogle.role c =? role
      then Ok (removelast contents ++ [MkContent (LlmGoogle.role c) (parts c ++ [part])])
      else Ok (contents ++ [MkContent role [part]])
  | None => Ok (contents ++ [MkContent role [part]])
  end.

Fixpoint build_contents (prompts : list LlmTurn.t) (contents : list Content)
    : Result (list Content) :=
  match prompts with
  | [] => Ok contents
  | prompt :: rest =>
      contents' <- add_part contents prompt ;;
      build_contents rest contents'
  end.

(** The test of the [if] in the [while] loop; the resolver never
    answers [None]. *)
Definition fits (size_sum : Z) (file_content : FileContent.t) : bool :=
  (0 <? FileContent.size file_content)%Z
  && (size_sum + FileContent.size file_content <? max_size)%Z.

(** The [while] loop: each round pops the head of the queue and fetches
    it; [size_sum] is the size embedded so far, [parts] the parts of
    the last entry. *)
Fixpoint embed_files (file_urls : list LlmFileUrl.t) (size_sum : Z)
    (parts : list Part) : Run (list Part) :=
  match file_urls with
  | [] => MkRun (Ok parts) [] []
  | file_url :: rest =>
      let file_content := base64_encoded_content_of file_url in
      if fits size_sum file_content
      then
        match decode_utf8 (FileContent.content file_content) with
        | Raise e => MkRun (Raise e) rest [file_url]
        | Ok data =>
            let run :=
              embed_files rest (size_sum + FileContent.size file_content)
                (parts ++ [InlineData (FileContent.mime_type file_content) data]) in
            MkRun (value run) (file_urls_after run) (file_url :: fetched run)
        end
      else
        let run := embed_files rest size_sum parts in
        MkRun (value run) (file_urls_after run) (file_url :: fetched run)
  end.

Definition to_dict (self : LlmBase.t) : Run Payload :=
  let file_urls := LlmBase.file_urls self in
  let fields := LlmSettings.to_dict (LlmBase.settings self) in
  match build_contents (LlmBase.prompts self) [] with
  | Raise e => MkRun (Raise e) file_urls []
  | Ok contents =>
      match file_urls, last contents with
      | _ :: _, Some c =>
          if LlmGoogle.role c =? "user"
          then
            let run := embed_files file_urls 0%Z (parts c) in
            MkRun (parts' <- value run ;;
                   Ok (MkPayload fields
                         (removelast contents ++ [MkContent (LlmGoogle.role c) parts'])))
                  (file_urls_after run) (fetched run)
          else MkRun (Ok (MkPayload fields contents)) file_urls []
      | _, _ => MkRun (Ok (MkPayload fields contents)) file_urls []
      end
  end.

Definition url (self : LlmBase.t) : string :=
  "https://generativelanguage.googleapis.com/" ++ "v1beta/"
  ++ LlmSettings.model (LlmBase.settings self) ++ ":generateContent?key="
  ++ LlmSettings.api_key (LlmBase.settings self).

Definition headers : list (string * string) :=
  [("Content-Type", "application/json")].

Definition no_tokens : LlmTokens.t := LlmTokens.Make (PyInt 0) (PyInt 0).

(** The body of the [try]. *)
Definition on_reply (request : Http.Response) : Result (Z * Obj * LlmTokens.t) :=
  let code := Http.status_code request in
  if (code =? OK)%Z
  then
    content <- json_loads (Http.text request) ;;
    candidates <- get content "candidates" (PyList [PyDict []]) ;;
    candidate <- item0 candidates ;;
    candidate_content <- get candidate "content" (PyDict []) ;;
    parts <- get candidate_content "parts" (PyList [PyDict []]) ;;
    part <- item0 parts ;;
    response <- get part "text" (PyStr "") ;;
    usage <- get content "usageMetadata" (PyDict []) ;;
    prompt_tokens <- get usage "promptTokenCount" PyNone ;;
    candidates_tokens <- get usage "candidatesTokenCount" PyNone ;;
    thoughts_tokens <- get usage "thoughtsTokenCount" PyNone ;;
    generated <- add (or candidates_tokens (PyInt 0)) (or thoughts_tokens (PyInt 0)) ;;
    Ok (code, response, LlmTokens.Make (or prompt_tokens (PyInt 0)) generated)
  else Ok (code, PyStr (Http.text request), no_tokens).

(** The [except] clause. *)
Definition on_exception (e : Http.RequestException) : Z * Obj * LlmTokens.t :=
  match Http.response e with
  | Some r => (Http.status_code r, PyStr (Http.text r), no_tokens)
  | None => (BAD_REQUEST, PyStr ("Request failed: " ++ Http.description e), no_tokens)
  end.

Definition respond (outcome : Http.Outcome) : Result LlmResponse.t :=
  '(code, response, tokens) <-
    match outcome with
    | Http.Replied request => on_reply request
    | Http.Failed e => Ok (on_exception e)
    end ;;
  code' <- HTTPStatus code ;;
  Ok (LlmResponse.Make code' response tokens).

Definition request (self : LlmBase.t) : Run LlmResponse.t :=
  let run := to_dict self in
  MkRun (data <- value run ;; respond (Http_post (url self) headers data))
        (file_urls_after run) (fetched run).

End Client.

End LlmGoogle.

(** ** The OpenAI client *)

Module LlmOpenai.

(** Modelled from the spec: [llm_openai.py] is not part of the sources.  The
    blocks, entries and payload are those of the wire format of vendor C
    in section 6, as the expected payloads of [test_llm_openai.py] spell
    them. *)
Inductive Block : Type :=
| InputText (text : string)     (* type input_text *)
| OutputText (text : string)    (* type output_text *)
| InputFile (file_url : string) (* type input_file *)
| InputImage (image_url : string). (* type input_image *)

Record Message : Type := MkMessage { role : string; content : list Block }.

Record Payload : Type := MkPayload {
  fields : list (string * Obj);
  instructions : string;
  input : list Message
}.

Section Client.

Variable json_loads : string -> Result Obj.
Variable Http_post : string -> list (string * string) -> Payload -> Http.Outcome.

(** Modelled from the spec: [llm_openai.py] is not part of the sources.
    Step 1 of the payload builder: a system turn is taken out as the
    instructions (the last one wins) and left out of the turn list; a
    user turn maps onto the wire role user, a model turn onto
    assistant.  Each other turn gives an entry of its own, with one
    block: that shape is the one the expected payload of [test_to_dict]
    in [test_llm_openai.py] has. *)
Fixpoint build_input (prompts : list LlmTurn.t) (instructions : string)
    (input : list Message) : Result (string * list Message) :=
  match prompts with
  | [] => Ok (instructions, input)
  | prompt :: rest =>
      let text := join newline (LlmTurn.text prompt) in
      if LlmTurn.role prompt =? LlmBase.ROLE_SYSTEM
      then build_input rest text input
      else if LlmTurn.role prompt =? LlmBase.ROLE_USER
      then build_input rest instructions (input ++ [MkMessage "user" [InputText text]])
      else if LlmTurn.role prompt =? LlmBase.ROLE_MODEL
      then build_input rest instructions (input ++ [MkMessage "assistant" [OutputText text]])
      else Raise KeyError
  end.

(** Modelled from the spec: step 3 for this vendor.  The queue is
    emptied one reference at a time; a PDF reference becomes a file-url
    block, an image reference an image-url block, any other is dropped
    without a fetch. *)
Fixpoint embed_files (file_urls : list LlmFileUrl.t) (blocks : list Block)
    : Run (list Block) :=
  match file_urls with
  | [] => MkRun (Ok blocks) [] []
  | file_url :: rest =>
      let blocks' :=
        match LlmFileUrl.type file_url with
        | PDF => blocks ++ [InputFile (LlmFileUrl.url file_url)]
        | IMAGE => blocks ++ [InputImage (LlmFileUrl.url file_url)]
        | TEXT | OTHER => blocks
        end in
      embed_files rest blocks'
  end.

(** Modelled from the spec: steps 3 and 4.  Attachments go to the final
    entry, only when its role is the wire role user and a reference is
    queued; the payload is the settings with the instructions (empty
    without a system turn) and the entries. *)
Definition to_dict (self : LlmBase.t) : Run Payload :=
  let file_urls := LlmBase.file_urls self in
  let fields := LlmSettings.to_dict (LlmBase.settings self) in
  match build_input (LlmBase.prompts self) "" [] with
  | Raise e => MkRun (Raise e) file_urls []
  | Ok (instructions, input) =>
      match file_urls, last input with
      | _ :: _, Some m =>
          if LlmOpenai.role m =? "user"
          then
            let run := embed_files file_urls (content m) in
            MkRun (blocks <- value run ;;
                   Ok (MkPayload fields instructions
                         (removelast input ++ [MkMessage (LlmOpenai.role m) blocks])))
                  (file_urls_after run) (fetched run)
          else MkRun (Ok (MkPayload fields instructions input)) file_urls []
      | _, _ => MkRun (Ok (MkPayload fields instructions input)) file_urls []
      end
  end.

(** Modelled from the spec: the endpoint and the headers of vendor C. *)
Definition url : string := "https://us.api.openai.com/v1/responses".

Definition headers (self : LlmBase.t) : list (string * string) :=
  [("Content-Type", "application/json");
   ("Authorization", ("Bearer " ++ LlmSettings.api_key (LlmBase.settings self))%string)].

Definition no_tokens : LlmTokens.t := LlmTokens.Make (PyInt 0) (PyInt 0).

(** Modelled from the spec: the text fragments of one entry of the
    output list, in order, with no separator. *)
Fixpoint fragments (items : list Obj) : Result string :=
  match items with
  | [] => Ok ""
  | item :: rest =>
      text <- get item "text" (PyStr "") ;;
      match text with
      | PyStr s => tail <- fragments rest ;; Ok (s ++ tail)%string
      | _ => Raise TypeError
      end
  end.

(** Modelled from the spec: only the entries tagged as a message
    contribute. *)
Fixpoint output_text (output : list Obj) : Result string :=
  match output with
  | [] => Ok ""
  | entry :: rest =>
      kind <- get entry "type" PyNone ;;
      head <-
        match kind with
        | PyStr tag =>
            if tag =? "message"
            then
              content <- get entry "content" (PyList []) ;;
              match content with
              | PyList items => fragments items
              | _ => Raise TypeError
              end
            else Ok ""
        | _ => Ok ""
        end ;;
      tail <- output_text rest ;;
      Ok (head ++ tail)%string
  end.

(** Modelled from the spec: the normaliser on a reply.  Status 200: the
    text of the output list and the token counts, a missing one being
    zero; any other status: the body as it is, no tokens. *)
Definition on_reply (request : Http.Response) : Result (Z * Obj * LlmTokens.t) :=
  let code := Http.status_code request in
  if (code =? OK)%Z
  then
    content <- json_loads (Http.text request) ;;
    output <- get content "output" (PyList []) ;;
    response <-
      match output with
      | PyList entries => output_text entries
      | _ => Raise TypeError
      end ;;
    usage <- get content "usage" (PyDict []) ;;
    input_tokens <- get usage "input_tokens" PyNone ;;
    output_tokens <- get usage "output_tokens" PyNone ;;
    Ok (code, PyStr response,
        LlmTokens.Make (or input_tokens (PyInt 0)) (or output_tokens (PyInt 0)))
  else Ok (code, PyStr (Http.text request), no_tokens).

(** Modelled from the spec: a transport exception gives the status and
    body of the response it carries, else status 400 and a message
    with its description. *)
Definition on_exception (e : Http.RequestException) : Z * Obj * LlmTokens.t :=
  match Http.response e with
  | Some r => (Http.status_code r, PyStr (Http.text r), no_tokens)
  | None => (BAD_REQUEST, PyStr ("Request failed: " ++ Http.description e), no_tokens)
  end.

(** Modelled from the spec: the unified result, its status an
    [HTTPStatus] as in the two clients above. *)
Definition respond (outcome : Http.Outcome) : Result LlmResponse.t :=
  '(code, response, tokens) <-
    match outcome with
    | Http.Replied request => on_reply request
    | Http.Failed e => Ok (on_exception e)
    end ;;
  code' <- HTTPStatus code ;;
  Ok (LlmResponse.Make code' response tokens).

(** Modelled from the spec: one POST of the built payload. *)
Definition request (self : LlmBase.t) : Run LlmResponse.t :=
  let run := to_dict self in
  MkRun (data <- value run ;; respond (Http_post url (headers self) data))
        (file_urls_after run) (fetched run).

End Client.

End LlmOpenai.

(** ** Reference codecs

    The builders take the codecs of the standard library as parameters.
    These two are the instances used to run them on the fixtures of the
    test-suite. *)

Module Codec.

Definition in_range (b : Byte.byte) (lo hi : N) : bool :=
  (lo <=? Byte.to_N b)%N && (Byte.to_N b <=? hi)%N.

Definition byte_of_N (n : N) : Byte.byte :=
  match Byte.of_N (n mod 256) with
  | Some b => b
  | None => Byte.x00
  end.

(** The value of a character of the base64 alphabet. *)
Definition b64_value (c : Byte.byte) : option N :=
  let n := Byte.to_N c in
  if in_range c 65 90 then Some (n - 65)%N
  else if in_range c 97 122 then Some (n - 71)%N
  else if in_range c 48 57 then Some (n + 4)%N
  else if (n =? 43)%N then Some 62%N
  else if (n =? 47)%N then Some 63%N
  else None.

(** [binascii.a2b_base64] without strict mode: characters outside the
    alphabet are skipped, a complete pad sequence ends the data, a
    dangling group is an error. *)
Fixpoint a2b_base64 (data : bytes) (quad_pos : nat) (leftchar : N) (pads : nat)
    (out : bytes) : Result bytes :=
  match data with
  | [] => if Nat.eqb quad_pos 0 then Ok out else Raise BinasciiError
  | c :: rest =>
      if (Byte.to_N c =? 61)%N
      then
        if Nat.leb 2 quad_pos
        then
          if Nat.leb 4 (quad_pos + S pads) then Ok out
          else a2b_base64 rest quad_pos leftchar (S pads) out
        else a2b_base64 rest quad_pos leftchar pads out
      else
        match b64_value c with
        | None => a2b_base64 rest quad_pos leftchar pads out
        | Some v =>
            match quad_pos with
            | 0 => a2b_base64 rest 1 v 0 out
            | 1 =>
                a2b_base64 rest 2 (N.land v 15) 0
                  (out ++ [byte_of_N (N.lor (N.shiftl leftchar 2) (N.shiftr v 4))])
            | 2 =>
                a2b_base64 rest 3 (N.land v 3) 0
                  (out ++ [byte_of_N (N.lor (N.shiftl leftchar 4) (N.shiftr v 2))])
            | _ =>
                a2b_base64 rest 0 0%N 0
                  (out ++ [byte_of_N (N.lor (N.shiftl leftchar 6) v)])
            end
        end
  end.

Definition standard_b64decode (data : bytes) : Result bytes :=
  a2b_base64 data 0 0%N 0 [].

(** Well-formed UTF-8 byte sequences (lead byte, then the ranges of the
    bytes that follow it). *)
Fixpoint well_formed_utf8 (data : bytes) : bool :=
  match data with
  | [] => true
  | b0 :: rest =>
      if in_range b0 0 127 then well_formed_utf8 rest
      else if in_range b0 194 223 then
        match rest with
        | b1 :: rest1 => in_range b1 128 191 && well_formed_utf8 rest1
        | _ => false
        end
      else if in_range b0 224 239 then
        match rest with
        | b1 :: b2 :: rest2 =>
            (if in_range b0 224 224 then in_range b1 160 191
             else if in_range b0 237 237 then in_range b1 128 159
             else in_range b1 128 191)
            && in_range b2 128 191 && well_formed_utf8 rest2
        | _ => false
        end
      else if in_range b0 240 244 then
        match rest with
        | b1 :: b2 :: b3 :: rest3 =>
            (if in_range b0 240 240 then in_range b1 144 191
             else if in_range b0 244 244 then in_range b1 128 143
             else in_range b1 128 191)
            && in_range b2 128 191 && in_range b3 128 191 && well_formed_utf8 rest3
        | _ => false
        end
      else false
  end.

(** [data.decode("utf-8")]; a [str] is held as its UTF-8 bytes. *)
Definition decode_utf8 (data : bytes) : Result string :=
  if well_formed_utf8 data
  then Ok (string_of_list_byte data)
  else Raise UnicodeDecodeError.

End Codec.

(** ** The three clients behind the interface of the base class *)

Inductive Vendor : Type := Anthropic | Google | Openai.

Module Client.

Inductive Payload : Type :=
| OfAnthropic (data : LlmAnthropic.Payload)
| OfGoogle (data : LlmGoogle.Payload)
| OfOpenai (data : LlmOpenai.Payload).

(** The collaborators of a client. *)
Record Env : Type := MkEnv {
  base64_encoded_content_of : LlmFileUrl.t -> FileContent.t;
  standard_b64decode : bytes -> Result bytes;
  decode_utf8 : bytes -> Result string;
  json_loads : string -> Result Obj;
  Http_post : string -> list (string * string) -> Payload -> Http.Outcome
}.

Definition lift {A B : Type} (f : A -> B) (run : Run A) : Run B :=
  MkRun (a <- value run ;; Ok (f a)) (file_urls_after run) (fetched run).

Definition to_dict (env : Env) (vendor : Vendor) (self : LlmBase.t) : Run Payload :=
  match vendor with
  | Anthropic =>
      lift OfAnthropic
        (LlmAnthropic.to_dict (base64_encoded_content_of env)
           (standard_b64decode env) (decode_utf8 env) self)
  | Google =>
      lift OfGoogle
        (LlmGoogle.to_dict (base64_encoded_content_of env) (decode_utf8 env) self)
  | Openai => lift OfOpenai (LlmOpenai.to_dict self)
  end.

Definition url (vendor : Vendor) (self : LlmBase.t) : string :=
  match vendor with
  | Anthropic => LlmAnthropic.url
  | Google => LlmGoogle.url self
  | Openai => LlmOpenai.url
  end.

Definition headers (vendor : Vendor) (self : LlmBase.t) : list (string * string) :=
  match vendor with
  | Anthropic => LlmAnthropic.headers self
  | Google => LlmGoogle.headers
  | Openai => LlmOpenai.headers self
  end.

Definition request (env : Env) (vendor : Vendor) (self : LlmBase.t)
    : Run LlmResponse.t :=
  match vendor with
  | Anthropic =>
      LlmAnthropic.request (base64_encoded_content_of env)
        (standard_b64decode env) (decode_utf8 env) (json_loads env)
        (fun u h data => Http_post env u h (OfAnthropic data)) self
  | Google =>
      LlmGoogle.request (base64_encoded_content_of env) (decode_utf8 env)
        (json_loads env)
        (fun u h data => Http_post env u h (OfGoogle data)) self
  | Openai =>
      LlmOpenai.request (json_loads env)
        (fun u h data => Http_post env u h (OfOpenai data)) self
  end.

(** From the answer of the transport to the returned [LlmResponse]. *)
Definition respond (env : Env) (vendor : Vendor) (outcome : Http.Outcome)
    : Result LlmResponse.t :=
  match vendor with
  | Anthropic => LlmAnthropic.respond (json_loads env) outcome
  | Google => LlmGoogle.respond (json_loads env) outcome
  | Openai => LlmOpenai.respond (json_loads env) outcome
  end.

(** What the transport answers to the POST of a request, when the
    payload gets built. *)
Definition posted (env : Env) (vendor : Vendor) (self : LlmBase.t)
    : Result Http.Outcome :=
  data <- value (to_dict env vendor self) ;;
  Ok (Http_post env (url vendor self) (headers vendor self) data).

(** The entries of a payload: wire role and number of blocks. *)
Definition entries (data : Payload) : list (string * nat) :=
  match data with
  | OfAnthropic p =>
      map (fun m => (LlmAnthropic.role m, List.length (LlmAnthropic.content m)))
        (LlmAnthropic.messages p)
  | OfGoogle p =>
      map (fun c => (LlmGoogle.role c, List.length (LlmGoogle.parts c)))
        (LlmGoogle.contents p)
  | OfOpenai p =>
      map (fun m => (LlmOpenai.role m, List.length (LlmOpenai.content m)))
        (LlmOpenai.input p)
  end.

(** The final entry has the wire role user. *)
Definition final_is_user (data : Payload) : bool :=
  match last (entries data) with
  | Some (role, _) => role =? "user"
  | None => false
  end.

End Client.

(** ** What the specification says, as predicates *)

Module Spec.

(** The wire role of a stored role under a vendor's [roles] table. *)
Definition wire (roles : string -> Result string) (key : string) : string :=
  match roles key with
  | Ok role => role
  | Raise _ => key
  end.

(** [entries] are the contiguous runs of [turns]: the blocks of the
    entries, in order, are the blocks of the turns, one for one; each
    block sits in an entry that has the wire role of its turn; no entry
    is empty; no two neighbours have the same role. *)
Definition merged {B : Type} (turns : list (string * B))
    (entries : list (string * list B)) : Prop :=
  List.concat (map snd entries) = map snd turns
  /\ flat_map (fun e => repeat (fst e) (List.length (snd e))) entries = map fst turns
  /\ (forall e, In e entries -> snd e <> [])
  /\ (forall before a b after,
        entries = before ++ a :: b :: after -> fst a <> fst b).

(** The loop body the builders of vendors A and B share, on entries:
    the part joins the last entry when that has the role, and starts a
    new entry otherwise. *)
Definition merge_step {B : Type} (entries : list (string * list B))
    (role : string) (part : B) : list (string * list B) :=
  match last entries with
  | Some (r, blocks) =>
      if r =? role
      then removelast entries ++ [(r, blocks ++ [part])]
      else entries ++ [(role, [part])]
  | None => entries ++ [(role, [part])]
  end.

(** The final entry with attachment blocks added to it. *)
Definition with_attached {B : Type} (entries : list (string * list B))
    (attached : list B) : list (string * list B) :=
  match last entries with
  | Some (role, blocks) => removelast entries ++ [(role, blocks ++ attached)]
  | None => entries
  end.

Definition anthropic_turns (prompts : list LlmTurn.t)
    : list (string * LlmAnthropic.Block) :=
  map (fun p => (wire LlmAnthropic.roles (LlmTurn.role p),
                 LlmAnthropic.Text (join newline (LlmTurn.text p)))) prompts.

Definition anthropic_entries (messages : list LlmAnthropic.Message)
    : list (string * list LlmAnthropic.Block) :=
  map (fun m => (LlmAnthropic.role m, LlmAnthropic.content m)) messages.

Definition google_turns (prompts : list LlmTurn.t)
    : list (string * LlmGoogle.Part) :=
  map (fun p => (wire LlmGoogle.roles (LlmTurn.role p),
                 LlmGoogle.Text (join newline (LlmTurn.text p)))) prompts.

Definition google_entries (contents : list LlmGoogle.Content)
    : list (string * list LlmGoogle.Part) :=
  map (fun c => (LlmGoogle.role c, LlmGoogle.parts c)) contents.

Definition openai_entries (input : list LlmOpenai.Message)
    : list (string * list LlmOpenai.Block) :=
  map (fun m => (LlmOpenai.role m, LlmOpenai.content m)) input.

(** Every stored turn has one of the three roles. *)
Definition stored (prompts : list LlmTurn.t) : Prop :=
  Forall (fun p => LlmBase.known_role (LlmTurn.role p) = true) prompts.

(** The elements of [l] flagged in [sel]. *)
Fixpoint chosen {A : Type} (sel : list bool) (l : list A) : list A :=
  match sel, l with
  | flag :: sel', x :: l' =>
      if flag then x :: chosen sel' l' else chosen sel' l'
  | _, _ => []
  end.

(** The size the resolver reports for a list of references, summed. *)
Definition total_size (resolve : LlmFileUrl.t -> FileContent.t)
    (file_urls : list LlmFileUrl.t) : Z :=
  fold_right Z.add 0%Z (map (fun f => FileContent.size (resolve f)) file_urls).

(** The attachments a vendor decodes while it builds a payload do
    decode: vendor A the text references (base64, then UTF-8), vendor B
    the base64 text of every reference, vendor C none. *)
Definition attachments_decode (env : Client.Env) (vendor : Vendor)
    (file_urls : list LlmFileUrl.t) : Prop :=
  match vendor with
  | Anthropic =>
      forall f, In f file_urls -> LlmFileUrl.type f = TEXT ->
        exists raw data,
          Client.standard_b64decode env
            (FileContent.content (Client.base64_encoded_content_of env f)) = Ok raw
          /\ Client.decode_utf8 env raw = Ok data
  | Google =>
      forall f, In f file_urls ->
        exists data,
          Client.decode_utf8 env
            (FileContent.content (Client.base64_encoded_content_of env f)) = Ok data
  | Openai => True
  end.

Definition is_text (f : LlmFileUrl.t) : bool :=
  match LlmFileUrl.type f with
  | TEXT => true
  | _ => false
  end.

(** A token count of a usage object: the field, or zero when it is
    missing. *)
Definition token (key : string) (usage : list (string * Obj)) (n : Z) : Prop :=
  lookup key usage = Some (PyInt n) \/ (lookup key usage = None /\ n = 0%Z).

Definition usage_of (key : string) (items usage : list (string * Obj)) : Prop :=
  lookup key items = Some (PyDict usage) \/ (lookup key items = None /\ usage = []).

(** Vendor A: content, a list of blocks, the first with the text; usage
    with input_tokens and output_tokens. *)
Definition anthropic_success (body : Obj) (text : string) (prompt generated : Z)
    : Prop :=
  exists items block blocks usage,
    body = PyDict items
    /\ lookup "content" items = Some (PyList (PyDict block :: blocks))
    /\ lookup "text" block = Some (PyStr text)
    /\ usage_of "usage" items usage
    /\ token "input_tokens" usage prompt
    /\ token "output_tokens" usage generated.

(** Vendor B: candidates, the first with content and parts, the first
    part with the text; usageMetadata with promptTokenCount,
    candidatesTokenCount and thoughtsTokenCount. *)
Definition google_success (body : Obj) (text : string) (prompt generated : Z)
    : Prop :=
  exists items candidate candidates content part parts usage answered thought,
    body = PyDict items
    /\ lookup "candidates" items = Some (PyList (PyDict candidate :: candidates))
    /\ lookup "content" candidate = Some (PyDict content)
    /\ lookup "parts" content = Some (PyList (PyDict part :: parts))
    /\ lookup "text" part = Some (PyStr text)
    /\ usage_of "usageMetadata" items usage
    /\ token "promptTokenCount" usage prompt
    /\ token "candidatesTokenCount" usage answered
    /\ token "thoughtsTokenCount" usage thought
    /\ generated = (answered + thought)%Z.

(** Vendor C: an output list of entries, each with a type and a content
    list of text fragments; usage with input_tokens and output_tokens. *)
Definition is_fragment (o : Obj) (text : string) : Prop :=
  exists items, o = PyDict items /\ lookup "text" items = Some (PyStr text).

Definition is_entry (o : Obj) (entry : string * list string) : Prop :=
  exists items content,
    o = PyDict items
    /\ lookup "type" items = Some (PyStr (fst entry))
    /\ lookup "content" items = Some (PyList content)
    /\ Forall2 is_fragment content (snd entry).

(** The fragments of the message entries, in list order, no separator. *)
Fixpoint message_text (entries : list (string * list string)) : string :=
  match entries with
  | [] => ""
  | (kind, texts) :: rest =>
      ((if kind =? "message" then String.concat "" texts else "")
       ++ message_text rest)%string
  end.

Definition openai_success (body : Obj) (text : string) (prompt generated : Z)
    : Prop :=
  exists items output entries usage,
    body = PyDict items
    /\ lookup "output" items = Some (PyList output)
    /\ Forall2 is_entry output entries
    /\ text = message_text entries
    /\ usage_of "usage" items usage
    /\ token "input_tokens" usage prompt
    /\ token "output_tokens" usage generated.

Definition success (vendor : Vendor) : Obj -> string -> Z -> Z -> Prop :=
  match vendor with
  | Anthropic => anthropic_success
  | Google => google_success
  | Openai => openai_success
  end.

(** A unified result: a status of [HTTPStatus], a text, two counts. *)
Definition unified (r : LlmResponse.t) : Prop :=
  is_HTTPStatus (LlmResponse.code r) = true
  /\ (exists text, LlmResponse.response r = PyStr text)
  /\ (exists prompt generated,
        LlmResponse.tokens r = LlmTokens.Make (PyInt prompt) (PyInt generated)).

(** The answers of the transport a request turns into a unified result:
    a 200 reply with a success body, any other reply or embedded
    response whose status is a member of [HTTPStatus], an exception
    without a response. *)
Definition handled (env : Client.Env) (vendor : Vendor) (outcome : Http.Outcome)
    : Prop :=
  match outcome with
  | Http.Replied r =>
      if (Http.status_code r =? OK)%Z
      then exists body text prompt generated,
             Client.json_loads env (Http.text r) = Ok body
             /\ success vendor body text prompt generated
      else is_HTTPStatus (Http.status_code r) = true
  | Http.Failed e =>
      match Http.response e with
      | Some r => is_HTTPStatus (Http.status_code r) = true
      | None => True
      end
  end.

End Spec.

(** ** The fixtures of the test-suite *)

Module Fixtures.

Definition settings : LlmSettings.t := LlmSettings.Make "test_key" "test_model" [].

Definition client (prompts : list LlmTurn.t) (file_urls : list LlmFileUrl.t)
    : LlmBase.t :=
  LlmBase.Make settings prompts file_urls.

Definition turn (role text : string) : LlmTurn.t := LlmTurn.Make role [text].

(** The eight [add_prompt] calls of [test_to_dict]. *)
Definition conversation : LlmBase.t :=
  fold_left LlmBase.add_prompt
    [turn "system" "system prompt 1";
     turn "user" "user message 1";
     turn "user" "user message 2";
     turn "user" "user message 3";
     turn "model" "model response 1";
     turn "model" "model response 2";
     turn "system" "system prompt 2";
     turn "user" "user message 4"]
    (client [] []).

(** The queue of [test_to_dict__with_files] of the Anthropic client. *)
Definition four_files : list LlmFileUrl.t :=
  [LlmFileUrl.Make "https://example.com/doc.pdf" PDF;
   LlmFileUrl.Make "https://example.com/pic.jpg" IMAGE;
   LlmFileUrl.Make "https://example.com/text.txt" TEXT;
   LlmFileUrl.Make "https://example.com/some.nop" OTHER].

(** The queue of [test_to_dict_with_files] of the Google client. *)
Definition six_files : list LlmFileUrl.t :=
  [LlmFileUrl.Make "https://example.com/doc1.pdf" PDF;
   LlmFileUrl.Make "https://example.com/pic1.jpg" IMAGE;
   LlmFileUrl.Make "https://example.com/text1.txt" TEXT;
   LlmFileUrl.Make "https://example.com/doc2.pdf" PDF;
   LlmFileUrl.Make "https://example.com/pic2.jpg" IMAGE;
   LlmFileUrl.Make "https://example.com/text2.txt" TEXT].

Definition MiB : Z := (1024 * 1024)%Z.

(** The resolver of the two tests: the six answers of the Google test by
    reference, the answer of the Anthropic test for any other. *)
Definition resolver (file_url : LlmFileUrl.t) : FileContent.t :=
  let u := LlmFileUrl.url file_url in
  if u =? "https://example.com/doc1.pdf"
  then FileContent.Make "type1" (list_byte_of_string "Y29udGVudDE=") (4 * MiB)
  else if u =? "https://example.com/pic1.jpg"
  then FileContent.Make "type2" (list_byte_of_string "Y29udGVudDI=") (3 * MiB)
  else if u =? "https://example.com/text1.txt"
  then FileContent.Make "type3" (list_byte_of_string "Y29udGVudDM=") (2 * MiB)
  else if u =? "https://example.com/doc2.pdf"
  then FileContent.Make "type4" (list_byte_of_string "Y29udGVudDQ=") (2 * MiB)
  else if u =? "https://example.com/pic2.jpg"
  then FileContent.Make "type5" (list_byte_of_string "Y29udGVudDU=") (2 * MiB)
  else if u =? "https://example.com/text2.txt"
  then FileContent.Make "type6" (list_byte_of_string "Y29udGVudDY=") (1 * MiB - 1)
  else FileContent.Make "theMimeType" (list_byte_of_string "dGhlQ29udGVudA==") 123.

(** The resolver when every fetch fails. *)
Definition failing_resolver (_ : LlmFileUrl.t) : FileContent.t :=
  FileContent.Make "" [] 0.

Definition quoted (s : string) : string :=
  (String "034"%char s ++ String "034"%char EmptyString)%string.

(** The success bodies of the three [test_request]. *)
Definition anthropic_text : string :=
  ("{" ++ quoted "content" ++ ": [{" ++ quoted "text" ++ ": "
   ++ quoted "response text" ++ "}], " ++ quoted "usage" ++ ": {"
   ++ quoted "input_tokens" ++ ": 10, " ++ quoted "output_tokens" ++ ": 20}}")%string.

Definition anthropic_body : Obj :=
  PyDict
    [("content", PyList [PyDict [("text", PyStr "response text")]]);
     ("usage", PyDict [("input_tokens", PyInt 10); ("output_tokens", PyInt 20)])].

Definition google_text : string :=
  ("{" ++ quoted "candidates" ++ ": [{" ++ quoted "content" ++ ": {"
   ++ quoted "parts" ++ ": [{" ++ quoted "text" ++ ": "
   ++ quoted "response text" ++ "}]}}], " ++ quoted "usageMetadata" ++ ": {"
   ++ quoted "promptTokenCount" ++ ": 10, " ++ quoted "candidatesTokenCount"
   ++ ": 15, " ++ quoted "thoughtsTokenCount" ++ ": 5}}")%string.

Definition google_body : Obj :=
  PyDict
    [("candidates",
      PyList [PyDict [("content",
                       PyDict [("parts", PyList [PyDict [("text", PyStr "response text")]])])]]);
     ("usageMetadata",
      PyDict [("promptTokenCount", PyInt 10);
              ("candidatesTokenCount", PyInt 15);
              ("thoughtsTokenCount", PyInt 5)])].

Definition openai_text : string :=
  ("{" ++ quoted "output" ++ ": ["
   ++ "{" ++ quoted "type" ++ ": " ++ quoted "message" ++ ", " ++ quoted "content"
   ++ ": [{" ++ quoted "text" ++ ": " ++ quoted "part1" ++ "}]}, "
   ++ "{" ++ quoted "type" ++ ": " ++ quoted "something" ++ ", " ++ quoted "content"
   ++ ": [{" ++ quoted "text" ++ ": " ++ quoted "nope" ++ "}]}, "
   ++ "{" ++ quoted "type" ++ ": " ++ quoted "message" ++ ", " ++ quoted "content"
   ++ ": [{" ++ quoted "text" ++ ": " ++ quoted "part2" ++ "}]}"
   ++ "], " ++ quoted "usage" ++ ": {"
   ++ quoted "input_tokens" ++ ": 10, " ++ quoted "output_tokens" ++ ": 20}}")%string.

Definition openai_body : Obj :=
  PyDict
    [("output",
      PyList
        [PyDict [("type", PyStr "message");
                 ("content", PyList [PyDict [("text", PyStr "part1")]])];
         PyDict [("type", PyStr "something");
                 ("content", PyList [PyDict [("text", PyStr "nope")]])];
         PyDict [("type", PyStr "message");
                 ("content", PyList [PyDict [("text", PyStr "part2")]])]]);
     ("usage", PyDict [("input_tokens", PyInt 10); ("output_tokens", PyInt 20)])].

(** A success body with two content blocks. *)
Definition two_blocks_text : string :=
  ("{" ++ quoted "content" ++ ": [{" ++ quoted "text" ++ ": " ++ quoted "first"
   ++ "}, {" ++ quoted "text" ++ ": " ++ quoted "second" ++ "}]}")%string.

Definition two_blocks_body : Obj :=
  PyDict
    [("content", PyList [PyDict [("text", PyStr "first")];
                         PyDict [("text", PyStr "second")]])].

(** [json.loads] on the bodies above; any other text, such as the HTML
    page of a gateway, is taken not to be JSON. *)
Definition json_loads (text : string) : Result Obj :=
  if text =? anthropic_text then Ok anthropic_body
  else if text =? google_text then Ok google_body
  else if text =? openai_text then Ok openai_body
  else if text =? two_blocks_text then Ok two_blocks_body
  else Raise JSONDecodeError.

(** The collaborators of a test: the transport answers [outcome]. *)
Definition env (resolve : LlmFileUrl.t -> FileContent.t) (outcome : Http.Outcome)
    : Client.Env :=
  Client.MkEnv resolve Codec.standard_b64decode Codec.decode_utf8 json_loads
    (fun _ _ _ => outcome).

Definition success_reply (vendor : Vendor) : Http.Outcome :=
  Http.Replied
    (Http.MkResponse 200
       match vendor with
       | Anthropic => anthropic_text
       | Google => google_text
       | Openai => openai_text
       end).

Definition not_found : Http.Outcome :=
  Http.Failed
    (Http.MkException "Server error" (Some (Http.MkResponse 404 "not found"))).

Definition connection_error : Http.Outcome :=
  Http.Failed (Http.MkException "Connection error" None).

(** The service overloaded: status 529 in the response an exception
    carries. *)
Definition overloaded : Http.Outcome :=
  Http.Failed
    (Http.MkException "Server error" (Some (Http.MkResponse 529 "overloaded"))).

(** A gateway that answers 200 with a page that is not JSON. *)
Definition html_page : Http.Outcome :=
  Http.Replied (Http.MkResponse 200 "<html>Bad Gateway</html>").

(** The expected input of [test_to_dict] in [test_llm_openai.py]. *)
Definition openai_expected_input : list LlmOpenai.Message :=
  [LlmOpenai.MkMessage "user" [LlmOpenai.InputText "user message 1"];
   LlmOpenai.MkMessage "user" [LlmOpenai.InputText "user message 2"];
   LlmOpenai.MkMessage "user" [LlmOpenai.InputText "user message 3"];
   LlmOpenai.MkMessage "assistant" [LlmOpenai.OutputText "model response 1"];
   LlmOpenai.MkMessage "assistant" [LlmOpenai.OutputText "model response 2"];
   LlmOpenai.MkMessage "user" [LlmOpenai.InputText "user message 4"]].

(** The answers of [test_attempt_requests]: the world is the answers
    still to come, as [side_effect] has them; the last one is repeated. *)
Definition answer (code : Z) (text : string) (prompt generated : Z) : LlmResponse.t :=
  LlmResponse.Make code (PyStr text) (LlmTokens.Make (PyInt prompt) (PyInt generated)).

Definition scripted (world : LlmResponse.t * list LlmResponse.t)
    : LlmResponse.t * (LlmResponse.t * list LlmResponse.t) :=
  match world with
  | (r, []) => (r, (r, []))
  | (r, next :: rest) => (r, (next, rest))
  end.

End Fixtures.

(** ** Further behaviour of the two builders, as functions *)

Module Behaviour.

(** The blocks the Anthropic loop appends for one reference, [data_of]
    giving the decoded text of a text reference. *)
Definition anthropic_blocks (data_of : LlmFileUrl.t -> string) (f : LlmFileUrl.t)
    : list LlmAnthropic.Block :=
  match LlmFileUrl.type f with
  | PDF => [LlmAnthropic.DocumentUrl (LlmFileUrl.url f)]
  | IMAGE => [LlmAnthropic.ImageUrl (LlmFileUrl.url f)]
  | TEXT => [LlmAnthropic.DocumentText (data_of f)]
  | OTHER => []
  end.

(** The text the Anthropic loop puts in the document of a text reference:
    its content decoded, base64 then UTF-8. *)
Definition anthropic_text (env : Client.Env) (f : LlmFileUrl.t) : string :=
  match
    raw <- Client.standard_b64decode env
             (FileContent.content (Client.base64_encoded_content_of env f)) ;;
    Client.decode_utf8 env raw
  with
  | Ok data => data
  | Raise _ => ""
  end.

(** A turn with the system role taken for a user turn. *)
Definition as_user (p : LlmTurn.t) : LlmTurn.t :=
  if LlmTurn.role p =? LlmBase.ROLE_SYSTEM
  then LlmTurn.Make LlmBase.ROLE_USER (LlmTurn.text p)
  else p.

(** Two roles that follow each other in the entries of a payload are the
    user role and [other], in one order or the other. *)
Definition alternate (other : string) (roles : list string) : Prop :=
  forall before a b after,
    roles = before ++ a :: b :: after ->
    (a = "user" /\ b = other) \/ (a = other /\ b = "user").

(** The client once a run is over: the queue is what the run left. *)
Definition after_run {A : Type} (self : LlmBase.t) (run : Run A) : LlmBase.t :=
  LlmBase.with_file_urls self (file_urls_after run).

(** [json.loads] on the bodies of the fixtures and on the empty object. *)
Definition json_loads (text : string) : Result Obj :=
  if text =? "{}" then Ok (PyDict []) else Fixtures.json_loads text.

(** The collaborators of a test with that decoder. *)
Definition env (outcome : Http.Outcome) : Client.Env :=
  Client.MkEnv Fixtures.resolver Codec.standard_b64decode Codec.decode_utf8
    json_loads (fun _ _ _ => outcome).

End Behaviour.

(** The token counts of a result that reports none. *)
Definition no_tokens : LlmTokens.t := LlmTokens.Make (PyInt 0) (PyInt 0).

(** * Proofs *)

(** ** Lists seen from their end *)

Lemma last_snoc {A : Type} (l : list A) (a : A) : last (l ++ [a]) = Some a.
Proof.
  induction l as [| x l IH]; [reflexivity |].
  simpl. destruct (l ++ [a]) eqn:E; [destruct l; discriminate | exact IH].
Qed.

Lemma snoc_cases {A : Type} (l : list A) :
  l = [] \/ exists front a, l = front ++ [a].
Proof.
  destruct l as [| x l] using rev_ind; [left; reflexivity |].
  right. exists l, x. reflexivity.
Qed.

Lemma last_map {A B : Type} (f : A -> B) (l : list A) :
  last (map f l) = option_map f (last l).
Proof.
  destruct (snoc_cases l) as [-> | (front & a & ->)]; [reflexivity |].
  rewrite map_app. simpl. now rewrite !last_snoc.
Qed.

Lemma removelast_map {A B : Type} (f : A -> B) (l : list A) :
  removelast (map f l) = map f (removelast l).
Proof.
  destruct (snoc_cases l) as [-> | (front & a & ->)]; [reflexivity |].
  rewrite map_app. simpl. now rewrite !removelast_last.
Qed.

Lemma last_Some {A : Type} (l : list A) (a : A) :
  last l = Some a -> l = removelast l ++ [a].
Proof.
  destruct (snoc_cases l) as [-> | (front & x & ->)]; [discriminate |].
  rewrite last_snoc, removelast_last. now intros [= ->].
Qed.

Lemma last_None {A : Type} (l : list A) : last l = None -> l = [].
Proof.
  destruct (snoc_cases l) as [-> | (front & x & ->)]; [reflexivity |].
  now rewrite last_snoc.
Qed.

(** Two neighbours of a list that ends with [x]: either they are in the
    front, or the second one is [x]. *)
Lemma neighbours_snoc {A : Type} (before after front : list A) (a b x : A) :
  before ++ a :: b :: after = front ++ [x] ->
  (exists after', after = after' ++ [x] /\ front = before ++ a :: b :: after')
  \/ (after = [] /\ b = x /\ front = before ++ [a]).
Proof.
  intros E. destruct (snoc_cases after) as [-> | (after' & y & ->)].
  - right. change (before ++ [a; b]) with (before ++ [a] ++ [b]) in E.
    rewrite app_assoc in E. apply app_inj_tail in E as [<- <-]. auto.
  - left. exists after'.
    change (before ++ a :: b :: after' ++ [y])
      with (before ++ (a :: b :: after') ++ [y]) in E.
    rewrite app_assoc in E. apply app_inj_tail in E as [<- <-]. auto.
Qed.

(** ** Merging contiguous turns *)

Section Merging.

Context {B : Type}.
Implicit Types (turns : list (string * B)) (entries : list (string * list B)).

Lemma merged_nil : Spec.merged (B := B) [] [].
Proof.
  repeat split; simpl; try easy.
  intros [| ? ?] ? ? ? E; discriminate E.
Qed.

Lemma merged_start turns role part :
  Spec.merged turns [] -> Spec.merged (turns ++ [(role, part)]) [(role, [part])].
Proof.
  intros (H1 & _). simpl in H1. symmetry in H1. apply map_eq_nil in H1 as ->.
  repeat split; simpl; try easy.
  - intros e [<- | []]. discriminate.
  - intros [| ? [| ? ?]] ? ? ? E; discriminate E.
Qed.

Lemma merged_join turns front role blocks part :
  Spec.merged turns (front ++ [(role, blocks)]) ->
  Spec.merged (turns ++ [(role, part)]) (front ++ [(role, blocks ++ [part])]).
Proof.
  intros (H1 & H2 & H3 & H4). repeat split.
  - rewrite !map_app, concat_app in *. simpl in *.
    rewrite app_nil_r in *. now rewrite app_assoc, H1.
  - rewrite flat_map_app, map_app in *. simpl in *. rewrite app_nil_r in *.
    rewrite length_app, Nat.add_1_r. simpl.
    rewrite repeat_cons, app_assoc. now rewrite H2.
  - intros e [He | [<- | []]]%in_app_or.
    + apply H3, in_or_app. now left.
    + simpl. now destruct blocks.
  - intros before a b after E. symmetry in E.
    apply neighbours_snoc in E as [(after' & -> & ->) | (-> & -> & ->)].
    + apply (H4 before a b (after' ++ [(role, blocks)])).
      now rewrite <- !app_assoc.
    + apply (H4 before a (role, blocks) []). now rewrite <- app_assoc.
Qed.

Lemma merged_new turns front r blocks role part :
  r <> role ->
  Spec.merged turns (front ++ [(r, blocks)]) ->
  Spec.merged (turns ++ [(role, part)])
    ((front ++ [(r, blocks)]) ++ [(role, [part])]).
Proof.
  intros Hr (H1 & H2 & H3 & H4). repeat split.
  - rewrite map_app, concat_app, H1, map_app. reflexivity.
  - rewrite flat_map_app, H2, map_app. reflexivity.
  - intros e [He | [<- | []]]%in_app_or; [now apply H3 | discriminate].
  - intros before a b after E. symmetry in E.
    apply neighbours_snoc in E as [(after' & -> & E) | (-> & -> & E)].
    + now apply (H4 before a b after').
    + apply app_inj_tail in E as [_ <-]. exact Hr.
Qed.

Lemma merged_step turns entries role part :
  Spec.merged turns entries ->
  Spec.merged (turns ++ [(role, part)]) (Spec.merge_step entries role part).
Proof.
  intros H. unfold Spec.merge_step.
  destruct (snoc_cases entries) as [-> | (front & [r blocks] & ->)].
  - now apply merged_start.
  - rewrite last_snoc, removelast_last.
    destruct (String.eqb_spec r role) as [-> | Hr].
    + now apply merged_join.
    + now apply merged_new.
Qed.

End Merging.

Lemma known_role_cases (role : string) :
  LlmBase.known_role role = true ->
  role = LlmBase.ROLE_SYSTEM \/ role = LlmBase.ROLE_USER \/ role = LlmBase.ROLE_MODEL.
Proof.
  unfold LlmBase.known_role. intros H.
  apply orb_true_iff in H as [H | H]; [apply orb_true_iff in H as [H | H] |];
    apply String.eqb_eq in H; auto.
Qed.

(** The loop body of a builder is [Spec.merge_step] on the entries. *)
Ltac loop_body_is_merge_step entries_of :=
  match goal with
  | H : LlmBase.known_role _ = true |- _ =>
      apply known_role_cases in H as [-> | [-> | ->]]
  end;
  unfold Spec.merge_step, entries_of;
  rewrite last_map, removelast_map;
  match goal with
  | |- context [last ?l] => destruct (last l) as [[r blocks] |]
  end; simpl;
  try match goal with
  | |- context [String.eqb ?a ?b] => destruct (String.eqb a b)
  end;
  eexists; (split; [reflexivity |]); rewrite map_app; reflexivity.

Lemma anthropic_add_part messages p :
  LlmBase.known_role (LlmTurn.role p) = true ->
  exists messages',
    LlmAnthropic.add_part messages p = Ok messages'
    /\ Spec.anthropic_entries messages'
       = Spec.merge_step (Spec.anthropic_entries messages)
           (Spec.wire LlmAnthropic.roles (LlmTurn.role p))
           (LlmAnthropic.Text (join newline (LlmTurn.text p))).
Proof.
  intros H. unfold LlmAnthropic.add_part, Spec.wire.
  loop_body_is_merge_step Spec.anthropic_entries.
Qed.

Lemma google_add_part contents p :
  LlmBase.known_role (LlmTurn.role p) = true ->
  exists contents',
    LlmGoogle.add_part contents p = Ok contents'
    /\ Spec.google_entries contents'
       = Spec.merge_step (Spec.google_entries contents)
           (Spec.wire LlmGoogle.roles (LlmTurn.role p))
           (LlmGoogle.Text (join newline (LlmTurn.text p))).
Proof.
  intros H. unfold LlmGoogle.add_part, Spec.wire.
  loop_body_is_merge_step Spec.google_entries.
Qed.

Lemma anthropic_build prompts : forall done messages,
  Spec.stored prompts ->
  Spec.merged (Spec.anthropic_turns done) (Spec.anthropic_entries messages) ->
  exists built,
    LlmAnthropic.build_messages prompts messages = Ok built
    /\ Spec.merged (Spec.anthropic_turns (done ++ prompts))
         (Spec.anthropic_entries built).
Proof.
  induction prompts as [| p prompts IH]; intros done messages Hs Hm.
  - exists messages. now rewrite app_nil_r.
  - inversion Hs as [| ? ? Hp Hs']; subst.
    destruct (anthropic_add_part messages p Hp) as (messages' & E & Hstep).
    simpl. rewrite E. simpl.
    replace (done ++ p :: prompts) with ((done ++ [p]) ++ prompts)
      by now rewrite <- app_assoc.
    apply IH; [exact Hs' |].
    rewrite Hstep. unfold Spec.anthropic_turns. rewrite map_app.
    now apply merged_step.
Qed.

Lemma google_build prompts : forall done contents,
  Spec.stored prompts ->
  Spec.merged (Spec.google_turns done) (Spec.google_entries contents) ->
  exists built,
    LlmGoogle.build_contents prompts contents = Ok built
    /\ Spec.merged (Spec.google_turns (done ++ prompts))
         (Spec.google_entries built).
Proof.
  induction prompts as [| p prompts IH]; intros done contents Hs Hm.
  - exists contents. now rewrite app_nil_r.
  - inversion Hs as [| ? ? Hp Hs']; subst.
    destruct (google_add_part contents p Hp) as (contents' & E & Hstep).
    simpl. rewrite E. simpl.
    replace (done ++ p :: prompts) with ((done ++ [p]) ++ prompts)
      by now rewrite <- app_assoc.
    apply IH; [exact Hs' |].
    rewrite Hstep. unfold Spec.google_turns. rewrite map_app.
    now apply merged_step.
Qed.

Lemma with_attached_nil {B : Type} (entries : list (string * list B)) :
  Spec.with_attached entries [] = entries.
Proof.
  unfold Spec.with_attached. destruct (last entries) as [[role blocks] |] eqn:E.
  - rewrite app_nil_r. symmetry. now apply last_Some.
  - reflexivity.
Qed.

(** ** The attachments of the Anthropic builder *)

Section AnthropicFiles.

Variable resolve : LlmFileUrl.t -> FileContent.t.
Variable b64decode : bytes -> Result bytes.
Variable decode : bytes -> Result string.

Let embed_files := LlmAnthropic.embed_files resolve b64decode decode.
Let to_dict := LlmAnthropic.to_dict resolve b64decode decode.

Lemma anthropic_embed_appends file_urls : forall blocks out,
  value (embed_files file_urls blocks) = Ok out ->
  exists attached, out = blocks ++ attached.
Proof.
  induction file_urls as [| f rest IH]; intros blocks out; simpl.
  - intros [= <-]. exists []. now rewrite app_nil_r.
  - destruct (LlmAnthropic.item_of resolve b64decode decode f) as [[item | e] calls];
      simpl; [| discriminate].
    intros H. apply IH in H as (attached & ->).
    destruct item as [b |]; [| now exists attached].
    exists (b :: attached). now rewrite <- app_assoc.
Qed.

(** The payload of a store whose turns are [built]. *)
Lemma anthropic_to_dict_attaches self built payload :
  LlmAnthropic.build_messages (LlmBase.prompts self) [] = Ok built ->
  value (to_dict self) = Ok payload ->
  exists attached,
    Spec.anthropic_entries (LlmAnthropic.messages payload)
    = Spec.with_attached (Spec.anthropic_entries built) attached.
Proof.
  intros Hb. subst to_dict. unfold LlmAnthropic.to_dict. rewrite Hb.
  assert (Hnone : value (MkRun (Ok (LlmAnthropic.MkPayload
              (LlmSettings.to_dict (LlmBase.settings self)) built))
              (LlmBase.file_urls self) []) = Ok payload ->
          exists attached,
            Spec.anthropic_entries (LlmAnthropic.messages payload)
            = Spec.with_attached (Spec.anthropic_entries built) attached).
  { intros [= <-]. exists []. now rewrite with_attached_nil. }
  destruct (LlmBase.file_urls self) as [| f rest] eqn:Q; [exact Hnone |].
  destruct (last built) as [m |] eqn:L; [| exact Hnone].
  destruct (LlmAnthropic.role m =? "user"); [| exact Hnone].
  remember (LlmAnthropic.embed_files resolve b64decode decode (f :: rest)
              (LlmAnthropic.content m)) as run eqn:R.
  simpl. destruct (value run) as [out | e] eqn:E; simpl; [| discriminate].
  rewrite R in E.
  intros [= <-]. apply anthropic_embed_appends in E as (attached & ->).
  exists attached. simpl. unfold Spec.with_attached, Spec.anthropic_entries.
  rewrite last_map, L, map_app, removelast_map. reflexivity.
Qed.

Lemma anthropic_to_dict_no_file self built :
  LlmAnthropic.build_messages (LlmBase.prompts self) [] = Ok built ->
  LlmBase.file_urls self = [] ->
  to_dict self
  = MkRun (Ok (LlmAnthropic.MkPayload
                 (LlmSettings.to_dict (LlmBase.settings self)) built)) [] [].
Proof.
  intros Hb Hq. subst to_dict. unfold LlmAnthropic.to_dict.
  now rewrite Hb, Hq.
Qed.

(** The loop empties the queue when the text references decode. *)
Lemma anthropic_embed_drains file_urls : forall blocks,
  (forall f, In f file_urls -> LlmFileUrl.type f = TEXT ->
     exists raw data,
       b64decode (FileContent.content (resolve f)) = Ok raw
       /\ decode raw = Ok data) ->
  exists out,
    embed_files file_urls blocks
    = MkRun (Ok out) [] (filter Spec.is_text file_urls).
Proof.
  induction file_urls as [| f rest IH]; intros blocks Hd; simpl.
  - now exists blocks.
  - assert (Hrest : forall f', In f' rest -> LlmFileUrl.type f' = TEXT ->
              exists raw data,
                b64decode (FileContent.content (resolve f')) = Ok raw
                /\ decode raw = Ok data)
      by (intros f' Hin; apply Hd; now right).
    unfold LlmAnthropic.item_of, Spec.is_text.
    destruct (LlmFileUrl.type f) eqn:T.
    + destruct (IH (blocks ++ [LlmAnthropic.DocumentUrl (LlmFileUrl.url f)]) Hrest)
        as (out & E).
      exists out. fold embed_files. now rewrite E.
    + destruct (IH (blocks ++ [LlmAnthropic.ImageUrl (LlmFileUrl.url f)]) Hrest)
        as (out & E).
      exists out. fold embed_files. now rewrite E.
    + destruct (Hd f (or_introl eq_refl) T) as (raw & data & E1 & E2).
      rewrite E1. simpl. rewrite E2. simpl.
      destruct (IH (blocks ++ [LlmAnthropic.DocumentText data]) Hrest)
        as (out & E).
      exists out. fold embed_files. now rewrite E.
    + destruct (IH blocks Hrest) as (out & E).
      exists out. fold embed_files. now rewrite E.
Qed.

End AnthropicFiles.

(** ** The attachments of the Google builder *)

Section GoogleFiles.

Variable resolve : LlmFileUrl.t -> FileContent.t.
Variable decode : bytes -> Result string.

Let embed_files := LlmGoogle.embed_files resolve decode.
Let to_dict := LlmGoogle.to_dict resolve decode.

Lemma google_embed_appends file_urls : forall size_sum parts out,
  value (embed_files file_urls size_sum parts) = Ok out ->
  exists attached, out = parts ++ attached.
Proof.
  induction file_urls as [| f rest IH]; intros size_sum parts out; simpl.
  - intros [= <-]. exists []. now rewrite app_nil_r.
  - destruct (LlmGoogle.fits size_sum (resolve f)).
    + destruct (decode (FileContent.content (resolve f))) as [data | e];
        simpl; [| discriminate].
      intros H. apply IH in H as (attached & ->).
      eexists (_ :: attached). now rewrite <- app_assoc.
    + simpl. apply IH.
Qed.

Lemma google_to_dict_attaches self built payload :
  LlmGoogle.build_contents (LlmBase.prompts self) [] = Ok built ->
  value (to_dict self) = Ok payload ->
  exists attached,
    Spec.google_entries (LlmGoogle.contents payload)
    = Spec.with_attached (Spec.google_entries built) attached.
Proof.
  intros Hb. subst to_dict. unfold LlmGoogle.to_dict. rewrite Hb.
  assert (Hnone : value (MkRun (Ok (LlmGoogle.MkPayload
              (LlmSettings.to_dict (LlmBase.settings self)) built))
              (LlmBase.file_urls self) []) = Ok payload ->
          exists attached,
            Spec.google_entries (LlmGoogle.contents payload)
            = Spec.with_attached (Spec.google_entries built) attached).
  { intros [= <-]. exists []. now rewrite with_attached_nil. }
  destruct (LlmBase.file_urls self) as [| f rest] eqn:Q; [exact Hnone |].
  destruct (last built) as [c |] eqn:L; [| exact Hnone].
  destruct (LlmGoogle.role c =? "user"); [| exact Hnone].
  remember (LlmGoogle.embed_files resolve decode (f :: rest) 0
              (LlmGoogle.parts c)) as run eqn:R.
  simpl. destruct (value run) as [out | e] eqn:E; simpl; [| discriminate].
  rewrite R in E.
  intros [= <-]. apply google_embed_appends in E as (attached & ->).
  exists attached. simpl. unfold Spec.with_attached, Spec.google_entries.
  rewrite last_map, L, map_app, removelast_map. reflexivity.
Qed.

Lemma google_to_dict_no_file self built :
  LlmGoogle.build_contents (LlmBase.prompts self) [] = Ok built ->
  LlmBase.file_urls self = [] ->
  to_dict self
  = MkRun (Ok (LlmGoogle.MkPayload
                 (LlmSettings.to_dict (LlmBase.settings self)) built)) [] [].
Proof.
  intros Hb Hq. subst to_dict. unfold LlmGoogle.to_dict.
  now rewrite Hb, Hq.
Qed.

(** The loop under the size budget: which references it embeds. *)
Lemma google_embed_budget (data_of : LlmFileUrl.t -> string) file_urls :
  forall size_sum parts,
  (forall f, In f file_urls -> (0 <= FileContent.size (resolve f))%Z) ->
  (forall f, In f file_urls ->
     decode (FileContent.content (resolve f)) = Ok (data_of f)) ->
  exists sel,
    List.length sel = List.length file_urls
    /\ embed_files file_urls size_sum parts
       = MkRun
           (Ok (parts
                ++ map (fun f => LlmGoogle.InlineData
                                   (FileContent.mime_type (resolve f)) (data_of f))
                     (Spec.chosen sel file_urls)))
           [] file_urls
    /\ forall i f,
         nth_error file_urls i = Some f ->
         (nth i sel false = true
          <-> FileContent.size (resolve f) <> 0%Z
              /\ (size_sum
                  + Spec.total_size resolve
                      (Spec.chosen (firstn i sel) (firstn i file_urls))
                  + FileContent.size (resolve f) < LlmGoogle.max_size)%Z).
Proof.
  induction file_urls as [| f rest IH]; intros size_sum parts Hpos Hdec.
  - exists []. simpl. rewrite app_nil_r. split; [| split]; try reflexivity.
    intros [| i] f'; discriminate.
  - assert (Hpos' : forall f', In f' rest -> (0 <= FileContent.size (resolve f'))%Z)
      by (intros f' Hin; apply Hpos; now right).
    assert (Hdec' : forall f', In f' rest ->
              decode (FileContent.content (resolve f')) = Ok (data_of f'))
      by (intros f' Hin; apply Hdec; now right).
    pose proof (Hpos f (or_introl eq_refl)) as Hf.
    simpl. rewrite (Hdec f (or_introl eq_refl)).
    destruct (LlmGoogle.fits size_sum (resolve f)) eqn:F;
      unfold LlmGoogle.fits in F.
    + apply andb_true_iff in F as [F1 F2].
      apply Z.ltb_lt in F1, F2.
      destruct (IH (size_sum + FileContent.size (resolve f))%Z
                  (parts ++ [LlmGoogle.InlineData
                               (FileContent.mime_type (resolve f)) (data_of f)])
                  Hpos' Hdec') as (sel & Hlen & E & Hsel).
      exists (true :: sel). fold embed_files. rewrite E. simpl.
      rewrite <- app_assoc. split; [now rewrite Hlen |]. split; [reflexivity |].
      intros [| i] f' Hi; simpl in *.
      * injection Hi as <-. unfold Spec.total_size. simpl. split; [lia | auto].
      * rewrite (Hsel i f' Hi). unfold Spec.total_size. simpl.
        split; intros [? ?]; split; auto; lia.
    + destruct (IH size_sum parts Hpos' Hdec') as (sel & Hlen & E & Hsel).
      exists (false :: sel). fold embed_files. rewrite E. simpl.
      split; [now rewrite Hlen |]. split; [reflexivity |].
      intros [| i] f' Hi; simpl in *.
      * injection Hi as <-. unfold Spec.total_size. simpl.
        apply andb_false_iff in F as [F | F]; apply Z.ltb_ge in F;
          split; try discriminate; intros [? ?]; lia.
      * now rewrite (Hsel i f' Hi).
Qed.

(** The loop empties the queue when the contents decode. *)
Lemma google_embed_drains file_urls : forall size_sum parts,
  (forall f, In f file_urls ->
     exists data, decode (FileContent.content (resolve f)) = Ok data) ->
  exists out, embed_files file_urls size_sum parts = MkRun (Ok out) [] file_urls.
Proof.
  induction file_urls as [| f rest IH]; intros size_sum parts Hd; simpl.
  - now exists parts.
  - assert (Hrest : forall f', In f' rest ->
              exists data, decode (FileContent.content (resolve f')) = Ok data)
      by (intros f' Hin; apply Hd; now right).
    destruct (Hd f (or_introl eq_refl)) as (data & ->).
    fold embed_files.
    destruct (LlmGoogle.fits size_sum (resolve f)).
    + destruct (IH (size_sum + FileContent.size (resolve f))%Z
                  (parts ++ [LlmGoogle.InlineData
                               (FileContent.mime_type (resolve f)) data]) Hrest)
        as (out & ->).
      now exists out.
    + destruct (IH size_sum parts Hrest) as (out & ->). now exists out.
Qed.

End GoogleFiles.


(** ** The OpenAI builder *)

Lemma openai_build prompts : forall instructions input,
  Spec.stored prompts ->
  exists instructions' input',
    LlmOpenai.build_input prompts instructions input = Ok (instructions', input').
Proof.
  induction prompts as [| p prompts IH]; intros instructions input Hs.
  - now exists instructions, input.
  - inversion Hs as [| ? ? Hp Hs']; subst. simpl.
    apply known_role_cases in Hp as [-> | [-> | ->]]; simpl; now apply IH.
Qed.

Lemma openai_embed_drains file_urls : forall blocks,
  exists out, LlmOpenai.embed_files file_urls blocks = MkRun (Ok out) [] [].
Proof.
  induction file_urls as [| f rest IH]; intros blocks; simpl.
  - now exists blocks.
  - apply IH.
Qed.

(** ** The queue after a build *)

Lemma final_is_user_snoc {A : Type} (f : A -> string * nat) (l : list A) (a : A) :
  match last (map f (l ++ [a])) with
  | Some (role, _) => role =? "user"
  | None => false
  end = (fst (f a) =? "user").
Proof.
  rewrite map_app. simpl. rewrite last_snoc. now destruct (f a).
Qed.

Lemma final_is_user_last {A : Type} (f : A -> string * nat) (l : list A) :
  match last (map f l) with
  | Some (role, _) => role =? "user"
  | None => false
  end = match last l with
        | Some a => fst (f a) =? "user"
        | None => false
        end.
Proof.
  rewrite last_map. destruct (last l) as [a |]; simpl; [now destruct (f a) | easy].
Qed.

Lemma anthropic_queue env self :
  Spec.stored (LlmBase.prompts self) ->
  Spec.attachments_decode env Anthropic (LlmBase.file_urls self) ->
  exists payload,
    value (Client.to_dict env Anthropic self) = Ok payload
    /\ file_urls_after (Client.to_dict env Anthropic self)
       = if Client.final_is_user payload then [] else LlmBase.file_urls self.
Proof.
  intros Hs Hd.
  destruct (anthropic_build (LlmBase.prompts self) [] [] Hs merged_nil)
    as (built & Hb & _).
  unfold Client.to_dict, Client.lift, LlmAnthropic.to_dict. rewrite Hb.
  unfold Client.final_is_user, Client.entries.
  destruct (LlmBase.file_urls self) as [| f rest] eqn:Q.
  - eexists. split; [reflexivity |]. simpl.
    now destruct (last _) as [[? ?] |]; [destruct (_ =? _) |].
  - destruct (last built) as [m |] eqn:L.
    + destruct (LlmAnthropic.role m =? "user") eqn:U.
      * destruct (anthropic_embed_drains _ _ _ (f :: rest)
                    (LlmAnthropic.content m) Hd) as (out & E).
        rewrite E. eexists. split; [reflexivity |].
        cbn [file_urls_after LlmAnthropic.messages].
        rewrite final_is_user_snoc. simpl. now rewrite U.
      * eexists. split; [reflexivity |].
        cbn [file_urls_after LlmAnthropic.messages].
        rewrite final_is_user_last, L. simpl. now rewrite U.
    + eexists. split; [reflexivity |].
      cbn [file_urls_after LlmAnthropic.messages].
      now rewrite final_is_user_last, L.
Qed.

Lemma google_queue env self :
  Spec.stored (LlmBase.prompts self) ->
  Spec.attachments_decode env Google (LlmBase.file_urls self) ->
  exists payload,
    value (Client.to_dict env Google self) = Ok payload
    /\ file_urls_after (Client.to_dict env Google self)
       = if Client.final_is_user payload then [] else LlmBase.file_urls self.
Proof.
  intros Hs Hd.
  destruct (google_build (LlmBase.prompts self) [] [] Hs merged_nil)
    as (built & Hb & _).
  unfold Client.to_dict, Client.lift, LlmGoogle.to_dict. rewrite Hb.
  unfold Client.final_is_user, Client.entries.
  destruct (LlmBase.file_urls self) as [| f rest] eqn:Q.
  - eexists. split; [reflexivity |]. simpl.
    now destruct (last _) as [[? ?] |]; [destruct (_ =? _) |].
  - destruct (last built) as [c |] eqn:L.
    + destruct (LlmGoogle.role c =? "user") eqn:U.
      * destruct (google_embed_drains _ _ (f :: rest) 0%Z
                    (LlmGoogle.parts c) Hd) as (out & E).
        rewrite E. eexists. split; [reflexivity |].
        cbn [file_urls_after LlmGoogle.contents].
        rewrite final_is_user_snoc. simpl. now rewrite U.
      * eexists. split; [reflexivity |].
        cbn [file_urls_after LlmGoogle.contents].
        rewrite final_is_user_last, L. simpl. now rewrite U.
    + eexists. split; [reflexivity |].
      cbn [file_urls_after LlmGoogle.contents].
      now rewrite final_is_user_last, L.
Qed.

Lemma openai_queue env self :
  Spec.stored (LlmBase.prompts self) ->
  exists payload,
    value (Client.to_dict env Openai self) = Ok payload
    /\ file_urls_after (Client.to_dict env Openai self)
       = if Client.final_is_user payload then [] else LlmBase.file_urls self.
Proof.
  intros Hs.
  destruct (openai_build (LlmBase.prompts self) "" [] Hs)
    as (instructions & input & Hb).
  unfold Client.to_dict, Client.lift, LlmOpenai.to_dict. rewrite Hb.
  unfold Client.final_is_user, Client.entries.
  destruct (LlmBase.file_urls self) as [| f rest] eqn:Q.
  - eexists. split; [reflexivity |]. simpl.
    now destruct (last _) as [[? ?] |]; [destruct (_ =? _) |].
  - destruct (last input) as [m |] eqn:L.
    + destruct (LlmOpenai.role m =? "user") eqn:U.
      * destruct (openai_embed_drains (f :: rest) (LlmOpenai.content m))
          as (out & E).
        rewrite E. eexists. split; [reflexivity |].
        cbn [file_urls_after LlmOpenai.input].
        rewrite final_is_user_snoc. simpl. now rewrite U.
      * eexists. split; [reflexivity |].
        cbn [file_urls_after LlmOpenai.input].
        rewrite final_is_user_last, L. simpl. now rewrite U.
    + eexists. split; [reflexivity |].
      cbn [file_urls_after LlmOpenai.input].
      now rewrite final_is_user_last, L.
Qed.

(** ** One request *)

Lemma request_posted env vendor self outcome :
  Client.posted env vendor self = Ok outcome ->
  value (Client.request env vendor self) = Client.respond env vendor outcome.
Proof.
  unfold Client.posted, Client.request, Client.respond, Client.to_dict, Client.lift.
  destruct vendor; simpl;
    unfold LlmAnthropic.request, LlmGoogle.request, LlmOpenai.request; simpl;
    match goal with
    | |- context [value ?run] => destruct (value run)
    end; simpl; intros [= <-]; reflexivity.
Qed.

Lemma request_not_built env vendor self e :
  value (Client.to_dict env vendor self) = Raise e ->
  value (Client.request env vendor self) = Raise e.
Proof.
  unfold Client.request, Client.to_dict, Client.lift.
  destruct vendor; simpl;
    unfold LlmAnthropic.request, LlmGoogle.request, LlmOpenai.request; simpl;
    match goal with
    | |- context [value ?run] => destruct (value run)
    end; simpl; intros [= <-]; reflexivity.
Qed.

Lemma HTTPStatus_member code :
  is_HTTPStatus code = true -> HTTPStatus code = Ok code.
Proof. unfold HTTPStatus. now intros ->. Qed.

(** A transport exception. *)
Lemma respond_exception env vendor e :
  Client.respond env vendor (Http.Failed e)
  = match Http.response e with
    | Some r =>
        code <- HTTPStatus (Http.status_code r) ;;
        Ok (LlmResponse.Make code (PyStr (Http.text r)) no_tokens)
    | None =>
        Ok (LlmResponse.Make BAD_REQUEST
              (PyStr ("Request failed: " ++ Http.description e)) no_tokens)
    end.
Proof.
  destruct vendor; simpl;
    unfold LlmAnthropic.respond, LlmGoogle.respond, LlmOpenai.respond,
      LlmAnthropic.on_exception, LlmGoogle.on_exception, LlmOpenai.on_exception;
    destruct (Http.response e); reflexivity.
Qed.

(** A reply with a status other than 200. *)
Lemma respond_other_status env vendor r :
  (Http.status_code r =? OK)%Z = false ->
  Client.respond env vendor (Http.Replied r)
  = (code <- HTTPStatus (Http.status_code r) ;;
     Ok (LlmResponse.Make code (PyStr (Http.text r)) no_tokens)).
Proof.
  intros H. destruct vendor; simpl;
    unfold LlmAnthropic.respond, LlmGoogle.respond, LlmOpenai.respond,
      LlmAnthropic.on_reply, LlmGoogle.on_reply, LlmOpenai.on_reply;
    rewrite H; reflexivity.
Qed.

Lemma token_or key usage n :
  Spec.token key usage n ->
  exists v, get (PyDict usage) key PyNone = Ok v /\ or v (PyInt 0) = PyInt n.
Proof.
  unfold Spec.token, get, or. intros [-> | [-> ->]].
  - eexists. split; [reflexivity |]. simpl.
    destruct (Z.eqb_spec n 0) as [-> |]; reflexivity.
  - eexists. split; reflexivity.
Qed.

Lemma usage_get key items usage :
  Spec.usage_of key items usage ->
  get (PyDict items) key (PyDict []) = Ok (PyDict usage).
Proof. unfold Spec.usage_of, get. now intros [-> | [-> ->]]. Qed.

Lemma append_empty (s : string) : (s ++ "")%string = s.
Proof. induction s as [| c s IH]; simpl; now rewrite ?IH. Qed.

Lemma openai_fragments content texts :
  Forall2 Spec.is_fragment content texts ->
  LlmOpenai.fragments content = Ok (String.concat "" texts).
Proof.
  induction 1 as [| o text content texts (items & -> & Ht) _ IH]; [reflexivity |].
  simpl. rewrite Ht, IH. simpl.
  destruct texts; [now rewrite append_empty | reflexivity].
Qed.

Lemma openai_output_text output entries :
  Forall2 Spec.is_entry output entries ->
  LlmOpenai.output_text output = Ok (Spec.message_text entries).
Proof.
  induction 1 as [| o [kind texts] output entries
                    (items & content & -> & Hk & Hc & Hf) _ IH]; [reflexivity |].
  simpl in Hk, Hf. cbn -[String.eqb]. rewrite Hk, IH. cbn -[String.eqb].
  destruct (kind =? "message").
  - rewrite Hc. cbn -[String.eqb]. rewrite (openai_fragments _ _ Hf). reflexivity.
  - reflexivity.
Qed.

(** A 200 reply with a success body. *)
Lemma respond_success env vendor r body text prompt generated :
  Http.status_code r = OK ->
  Client.json_loads env (Http.text r) = Ok body ->
  Spec.success vendor body text prompt generated ->
  Client.respond env vendor (Http.Replied r)
  = Ok (LlmResponse.Make OK (PyStr text)
          (LlmTokens.Make (PyInt prompt) (PyInt generated))).
Proof.
  intros Hc Hl Hs. destruct vendor; simpl in *.
  - destruct Hs as (items & block & blocks & usage & -> & H1 & H2 & H3 & H4 & H5).
    apply usage_get in H3.
    apply token_or in H4 as (v4 & G4 & O4), H5 as (v5 & G5 & O5).
    unfold LlmAnthropic.respond, LlmAnthropic.on_reply.
    rewrite Hc, Hl. cbn -[get or]. rewrite H3. cbn -[get or].
    rewrite G4, G5. cbn -[or]. rewrite H1. cbn -[or]. rewrite H2. cbn -[or].
    now rewrite O4, O5.
  - destruct Hs as (items & candidate & candidates & content & part & parts & usage
                    & answered & thought & -> & H1 & H2 & H3 & H4 & H5 & H6 & H7
                    & H8 & ->).
    apply usage_get in H5.
    apply token_or in H6 as (v6 & G6 & O6), H7 as (v7 & G7 & O7),
      H8 as (v8 & G8 & O8).
    unfold LlmGoogle.respond, LlmGoogle.on_reply.
    rewrite Hc, Hl. cbn -[get or add]. rewrite H5. cbn -[get or add].
    rewrite G6, G7, G8. cbn -[or add]. rewrite H1. cbn -[or add].
    rewrite H2. cbn -[or add]. rewrite H3. cbn -[or add]. rewrite H4.
    cbn -[or add]. rewrite O6, O7, O8. reflexivity.
  - destruct Hs as (items & output & entries & usage & -> & H1 & H2 & -> & H3
                    & H4 & H5).
    apply usage_get in H3.
    apply token_or in H4 as (v4 & G4 & O4), H5 as (v5 & G5 & O5).
    unfold LlmOpenai.respond, LlmOpenai.on_reply.
    rewrite Hc, Hl. cbn -[get or LlmOpenai.output_text]. rewrite H3.
    cbn -[get or LlmOpenai.output_text]. rewrite G4, G5.
    cbn -[or LlmOpenai.output_text]. rewrite H1. cbn -[or LlmOpenai.output_text].
    rewrite (openai_output_text _ _ H2). cbn -[or]. now rewrite O4, O5.
Qed.

(** ** The retry driver *)

Section Retry.

Context {W : Type} (request : W -> LlmResponse.t * W).

Let nth_response := LlmBase.nth_response request.
Let world_after := LlmBase.world_after request.
Let attempt_loop := LlmBase.attempt_loop request.

Lemma responses_succ (w : W) (n : nat) :
  map (nth_response w) (seq 0 (S n))
  = fst (request w) :: map (nth_response (snd (request w))) (seq 0 n).
Proof.
  simpl. f_equal. rewrite <- seq_shift, map_map. reflexivity.
Qed.

Lemma attempt_loop_exhausted (attempts remaining : nat) :
  forall (w : W) (result : list LlmResponse.t),
  (forall k, k < remaining -> LlmResponse.code (nth_response w k) <> OK) ->
  attempt_loop attempts remaining w result
  = (result ++ map (nth_response w) (seq 0 remaining)
       ++ [LlmBase.exhausted attempts],
     world_after remaining w).
Proof.
  induction remaining as [| remaining IH]; intros w result H; [reflexivity |].
  rewrite responses_succ. simpl.
  pose proof (H 0 (Nat.lt_0_succ _)) as H0.
  unfold nth_response, LlmBase.nth_response in H0. simpl in H0.
  destruct (request w) as [r w'] eqn:E. simpl in *.
  apply Z.eqb_neq in H0. rewrite H0.
  fold attempt_loop. rewrite IH.
  - now rewrite <- app_assoc.
  - intros k Hk. specialize (H (S k) (proj1 (Nat.succ_lt_mono _ _) Hk)).
    unfold nth_response, LlmBase.nth_response in *. simpl in H.
    now rewrite E in H.
Qed.

Lemma attempt_loop_success (attempts k : nat) :
  forall (remaining : nat) (w : W) (result : list LlmResponse.t),
  k < remaining ->
  LlmResponse.code (nth_response w k) = OK ->
  (forall j, j < k -> LlmResponse.code (nth_response w j) <> OK) ->
  attempt_loop attempts remaining w result
  = (result ++ map (nth_response w) (seq 0 (S k)), world_after (S k) w).
Proof.
  induction k as [| k IH]; intros remaining w result Hk Hok Hbefore;
    (destruct remaining as [| remaining]; [inversion Hk |]).
  - unfold nth_response, LlmBase.nth_response in Hok. simpl in *.
    destruct (request w) as [r w'] eqn:E. simpl in *.
    rewrite Hok, Z.eqb_refl. unfold nth_response, LlmBase.nth_response.
    simpl. now rewrite E.
  - rewrite responses_succ. simpl.
    pose proof (Hbefore 0 (Nat.lt_0_succ _)) as H0.
    unfold nth_response, LlmBase.nth_response in H0, Hok. simpl in H0, Hok.
    destruct (request w) as [r w'] eqn:E. simpl in *.
    apply Z.eqb_neq in H0. rewrite H0.
    fold attempt_loop. rewrite (IH remaining w' (result ++ [r])).
    + now rewrite <- app_assoc.
    + now apply Nat.succ_lt_mono.
    + exact Hok.
    + intros j Hj. specialize (Hbefore (S j) (proj1 (Nat.succ_lt_mono _ _) Hj)).
      unfold nth_response, LlmBase.nth_response in *. simpl in Hbefore.
      now rewrite E in Hbefore.
Qed.

End Retry.

(** * The claims *)

(** C1, as amended.  In the payload builds of the Anthropic and the Google
    client, for every sequence of stored turns, contiguous runs of turns
    whose roles map to the same wire role merge into a single entry with
    one block per source turn, in the original order, and a change of
    role always starts a new entry, even when the role comes back later:
    the loop returns entries that are the contiguous runs of the turns,
    the payload of a client with an empty queue holds exactly these
    entries, and in any payload only attachment blocks are added, to the
    final entry. *)
Theorem contiguous_turns_merge (env : Client.Env) (self : LlmBase.t) :
  Spec.stored (LlmBase.prompts self) ->
  (exists built,
     LlmAnthropic.build_messages (LlmBase.prompts self) [] = Ok built
     /\ Spec.merged (Spec.anthropic_turns (LlmBase.prompts self))
          (Spec.anthropic_entries built)
     /\ (LlmBase.file_urls self = [] ->
         value (LlmAnthropic.to_dict (Client.base64_encoded_content_of env)
                  (Client.standard_b64decode env) (Client.decode_utf8 env) self)
         = Ok (LlmAnthropic.MkPayload
                 (LlmSettings.to_dict (LlmBase.settings self)) built))
     /\ (forall payload,
           value (LlmAnthropic.to_dict (Client.base64_encoded_content_of env)
                    (Client.standard_b64decode env) (Client.decode_utf8 env) self)
           = Ok payload ->
           exists attached,
             Spec.anthropic_entries (LlmAnthropic.messages payload)
             = Spec.with_attached (Spec.anthropic_entries built) attached))
  /\ (exists built,
        LlmGoogle.build_contents (LlmBase.prompts self) [] = Ok built
        /\ Spec.merged (Spec.google_turns (LlmBase.prompts self))
             (Spec.google_entries built)
        /\ (LlmBase.file_urls self = [] ->
            value (LlmGoogle.to_dict (Client.base64_encoded_content_of env)
                     (Client.decode_utf8 env) self)
            = Ok (LlmGoogle.MkPayload
                    (LlmSettings.to_dict (LlmBase.settings self)) built))
        /\ (forall payload,
              value (LlmGoogle.to_dict (Client.base64_encoded_content_of env)
                       (Client.decode_utf8 env) self)
              = Ok payload ->
              exists attached,
                Spec.google_entries (LlmGoogle.contents payload)
                = Spec.with_attached (Spec.google_entries built) attached)).
Proof.
  intros Hs. split.
  - destruct (anthropic_build (LlmBase.prompts self) [] [] Hs merged_nil)
      as (built & Hb & Hm).
    exists built. split; [exact Hb |]. split; [exact Hm |]. split.
    + intros Hq. now rewrite (anthropic_to_dict_no_file _ _ _ self built Hb Hq).
    + intros payload. now apply anthropic_to_dict_attaches.
  - destruct (google_build (LlmBase.prompts self) [] [] Hs merged_nil)
      as (built & Hb & Hm).
    exists built. split; [exact Hb |]. split; [exact Hm |]. split.
    + intros Hq. now rewrite (google_to_dict_no_file _ _ self built Hb Hq).
    + intros payload. now apply google_to_dict_attaches.
Qed.

(** The eight turns of [test_to_dict] are stored turns; the theorem at
    that conversation. *)
Lemma contiguous_turns_merge_witness :
  Spec.stored (LlmBase.prompts Fixtures.conversation)
  /\ exists built,
       LlmAnthropic.build_messages (LlmBase.prompts Fixtures.conversation) []
       = Ok built
       /\ Spec.merged (Spec.anthropic_turns (LlmBase.prompts Fixtures.conversation))
            (Spec.anthropic_entries built).
Proof.
  assert (Hs : Spec.stored (LlmBase.prompts Fixtures.conversation))
    by (vm_compute; repeat constructor).
  split; [exact Hs |].
  destruct (contiguous_turns_merge
              (Fixtures.env Fixtures.resolver Fixtures.connection_error)
              Fixtures.conversation Hs) as [(built & Hb & Hm & _) _].
  exists built. split; [exact Hb | exact Hm].
Defined.

(** C1, as stated, fails for the OpenAI client: on the conversation of
    [test_to_dict] the payload is the one the test expects, with the three
    user turns in three entries of their own; these entries are the
    contiguous runs of no sequence of turns. *)
Lemma openai_turns_not_merged :
  value (LlmOpenai.to_dict Fixtures.conversation)
  = Ok (LlmOpenai.MkPayload [("model", PyStr "test_model")] "system prompt 2"
          Fixtures.openai_expected_input)
  /\ forall turns,
       ~ Spec.merged turns (Spec.openai_entries Fixtures.openai_expected_input).
Proof.
  split; [vm_compute; reflexivity |].
  intros turns (_ & _ & _ & H).
  apply (H [] ("user", [LlmOpenai.InputText "user message 1"])
           ("user", [LlmOpenai.InputText "user message 2"])
           (Spec.openai_entries (skipn 2 Fixtures.openai_expected_input)));
    reflexivity.
Qed.

(** C2, as amended.  For every vendor and every store whose attachments
    decode, building a payload returns, and it leaves the queue empty
    when the final entry of the payload has the wire role user, however
    many references were embedded; when there is no entry or the final
    entry has another role, the queue is left as it was. *)
Theorem queue_after_build (env : Client.Env) (vendor : Vendor) (self : LlmBase.t) :
  Spec.stored (LlmBase.prompts self) ->
  Spec.attachments_decode env vendor (LlmBase.file_urls self) ->
  exists payload,
    value (Client.to_dict env vendor self) = Ok payload
    /\ file_urls_after (Client.to_dict env vendor self)
       = if Client.final_is_user payload then [] else LlmBase.file_urls self.
Proof.
  intros Hs Hd. destruct vendor.
  - now apply anthropic_queue.
  - now apply google_queue.
  - now apply openai_queue.
Qed.

(** The user turn and the four references of [test_to_dict__with_files]:
    the queue is emptied, the reference of unknown kind with the rest. *)
Lemma queue_after_build_witness :
  Spec.stored [Fixtures.turn "user" "the prompt"]
  /\ Spec.attachments_decode
       (Fixtures.env Fixtures.resolver Fixtures.connection_error) Anthropic
       Fixtures.four_files
  /\ exists payload,
       value (Client.to_dict
                (Fixtures.env Fixtures.resolver Fixtures.connection_error) Anthropic
                (Fixtures.client [Fixtures.turn "user" "the prompt"]
                   Fixtures.four_files)) = Ok payload
       /\ file_urls_after
            (Client.to_dict
               (Fixtures.env Fixtures.resolver Fixtures.connection_error) Anthropic
               (Fixtures.client [Fixtures.turn "user" "the prompt"]
                  Fixtures.four_files))
          = if Client.final_is_user payload then [] else Fixtures.four_files.
Proof.
  assert (Hs : Spec.stored [Fixtures.turn "user" "the prompt"])
    by (repeat constructor).
  assert (Hd : Spec.attachments_decode
                 (Fixtures.env Fixtures.resolver Fixtures.connection_error)
                 Anthropic Fixtures.four_files).
  { intros f [<- | [<- | [<- | [<- | []]]]] T; try discriminate T.
    eexists. eexists. split; vm_compute; reflexivity. }
  split; [exact Hs |]. split; [exact Hd |].
  exact (queue_after_build
           (Fixtures.env Fixtures.resolver Fixtures.connection_error) Anthropic
           (Fixtures.client [Fixtures.turn "user" "the prompt"] Fixtures.four_files)
           Hs Hd).
Defined.

(** C2, as stated, fails: with no turn, and with a model turn as the
    final entry, the Anthropic build leaves the four queued references
    where they are, as [test_to_dict__with_files] expects. *)
Lemma queue_kept_without_user_entry :
  file_urls_after
    (LlmAnthropic.to_dict Fixtures.resolver Codec.standard_b64decode
       Codec.decode_utf8 (Fixtures.client [] Fixtures.four_files))
  = Fixtures.four_files
  /\ file_urls_after
       (LlmAnthropic.to_dict Fixtures.resolver Codec.standard_b64decode
          Codec.decode_utf8
          (Fixtures.client [Fixtures.turn "model" "the response"]
             Fixtures.four_files))
     = Fixtures.four_files
  /\ Fixtures.four_files <> [].
Proof.
  split; [vm_compute; reflexivity |].
  split; [vm_compute; reflexivity | discriminate].
Qed.

Ltac is_unified :=
  unfold Spec.unified; simpl;
  split; [first [reflexivity | assumption] |];
  split; [eexists; reflexivity | do 2 eexists; reflexivity].

(** C3, as amended.  For every vendor client, once the payload is built,
    the single-request operation returns a unified result (an
    [HTTPStatus], a text, two token counts) on a 200 reply whose body
    decodes to a success body of the vendor, on any other reply whose
    status is a member of [HTTPStatus], and on a transport exception,
    with an embedded response whose status is such a member or with
    none. *)
Theorem request_returns_unified (env : Client.Env) (vendor : Vendor)
    (self : LlmBase.t) (outcome : Http.Outcome) :
  Client.posted env vendor self = Ok outcome ->
  Spec.handled env vendor outcome ->
  exists r, value (Client.request env vendor self) = Ok r /\ Spec.unified r.
Proof.
  intros Hp Hh. rewrite (request_posted _ _ _ _ Hp).
  destruct outcome as [r | e]; simpl in Hh.
  - destruct (Http.status_code r =? OK)%Z eqn:C.
    + destruct Hh as (body & text & prompt & generated & Hl & Hs).
      apply Z.eqb_eq in C.
      rewrite (respond_success _ _ _ _ _ _ _ C Hl Hs).
      eexists. split; [reflexivity |]. is_unified.
    + rewrite (respond_other_status _ _ _ C), (HTTPStatus_member _ Hh).
      eexists. split; [reflexivity |]. is_unified.
  - rewrite respond_exception. destruct (Http.response e) as [r |].
    + rewrite (HTTPStatus_member _ Hh).
      eexists. split; [reflexivity |]. is_unified.
    + eexists. split; [reflexivity |]. is_unified.
Qed.

(** The success reply of [test_request], for the Google client. *)
Lemma request_returns_unified_witness :
  Client.posted (Fixtures.env Fixtures.resolver (Fixtures.success_reply Google))
    Google (Fixtures.client [Fixtures.turn "user" "test"] [])
  = Ok (Fixtures.success_reply Google)
  /\ Spec.handled (Fixtures.env Fixtures.resolver (Fixtures.success_reply Google))
       Google (Fixtures.success_reply Google)
  /\ exists r,
       value (Client.request
                (Fixtures.env Fixtures.resolver (Fixtures.success_reply Google))
                Google (Fixtures.client [Fixtures.turn "user" "test"] [])) = Ok r
       /\ Spec.unified r.
Proof.
  assert (Hp : Client.posted
                 (Fixtures.env Fixtures.resolver (Fixtures.success_reply Google))
                 Google (Fixtures.client [Fixtures.turn "user" "test"] [])
               = Ok (Fixtures.success_reply Google)) by reflexivity.
  assert (Hh : Spec.handled
                 (Fixtures.env Fixtures.resolver (Fixtures.success_reply Google))
                 Google (Fixtures.success_reply Google)).
  { exists Fixtures.google_body, "response text", 10%Z, 20%Z.
    split; [reflexivity |].
    unfold Spec.success, Spec.google_success, Fixtures.google_body.
    do 7 eexists. exists 15%Z, 5%Z.
    repeat split; try reflexivity; try (left; reflexivity). }
  split; [exact Hp |]. split; [exact Hh |].
  exact (request_returns_unified _ _ _ _ Hp Hh).
Defined.

(** C3, as stated, fails: a 200 reply whose body is not JSON makes the
    request of the Anthropic and of the Google client raise the error of
    [json.loads], which the [except] clause does not catch. *)
Lemma request_raises_on_non_json :
  value (Client.request (Fixtures.env Fixtures.resolver Fixtures.html_page)
           Anthropic (Fixtures.client [Fixtures.turn "user" "test"] []))
  = Raise JSONDecodeError
  /\ value (Client.request (Fixtures.env Fixtures.resolver Fixtures.html_page)
              Google (Fixtures.client [Fixtures.turn "user" "test"] []))
     = Raise JSONDecodeError.
Proof. split; vm_compute; reflexivity. Qed.

(** C6, as amended.  For every vendor client, when the POST raises a
    transport exception: if the exception carries a response whose status
    is a member of [HTTPStatus], the unified result has the status and the
    body text of that response; if it carries none, the status is 400 and
    the text is the message with the description of the exception; the
    token counts are zero. *)
Theorem request_on_transport_exception (env : Client.Env) (vendor : Vendor)
    (self : LlmBase.t) (e : Http.RequestException) :
  Client.posted env vendor self = Ok (Http.Failed e) ->
  (forall r,
     Http.response e = Some r ->
     is_HTTPStatus (Http.status_code r) = true ->
     value (Client.request env vendor self)
     = Ok (LlmResponse.Make (Http.status_code r) (PyStr (Http.text r)) no_tokens))
  /\ (Http.response e = None ->
      value (Client.request env vendor self)
      = Ok (LlmResponse.Make 400
              (PyStr ("Request failed: " ++ Http.description e)) no_tokens)).
Proof.
  intros Hp. rewrite (request_posted _ _ _ _ Hp), respond_exception. split.
  - intros r -> Hm. now rewrite (HTTPStatus_member _ Hm).
  - now intros ->.
Qed.

(** The exception of [test_request] that carries a 404 response. *)
Lemma request_on_transport_exception_witness :
  Client.posted (Fixtures.env Fixtures.resolver Fixtures.not_found) Anthropic
    (Fixtures.client [Fixtures.turn "user" "test"] [])
  = Ok Fixtures.not_found
  /\ is_HTTPStatus 404 = true
  /\ value (Client.request (Fixtures.env Fixtures.resolver Fixtures.not_found)
              Anthropic (Fixtures.client [Fixtures.turn "user" "test"] []))
     = Ok (LlmResponse.Make 404 (PyStr "not found") no_tokens).
Proof.
  assert (Hp : Client.posted (Fixtures.env Fixtures.resolver Fixtures.not_found)
                 Anthropic (Fixtures.client [Fixtures.turn "user" "test"] [])
               = Ok Fixtures.not_found) by reflexivity.
  split; [exact Hp |]. split; [reflexivity |].
  exact (proj1 (request_on_transport_exception _ _ _ _ Hp)
           (Http.MkResponse 404 "not found") eq_refl eq_refl).
Defined.

(** C6, as stated, fails: an exception that carries a response with
    status 529, which [HTTPStatus] does not have, makes the request of the
    Anthropic and of the Google client raise [ValueError] where the claim
    has a unified result with that status. *)
Lemma embedded_status_outside_HTTPStatus :
  value (Client.request (Fixtures.env Fixtures.resolver Fixtures.overloaded)
           Anthropic (Fixtures.client [Fixtures.turn "user" "test"] []))
  = Raise ValueError
  /\ value (Client.request (Fixtures.env Fixtures.resolver Fixtures.overloaded)
              Google (Fixtures.client [Fixtures.turn "user" "test"] []))
     = Raise ValueError.
Proof. split; vm_compute; reflexivity. Qed.

(** C7.  For every vendor and every success body of its schema, a 200
    reply yields exactly the text and the two token counts of the body, a
    missing token field counting as zero, and for the Google client the
    thinking-token count added to the generated count. *)
Theorem success_body_round_trip (env : Client.Env) (vendor : Vendor)
    (self : LlmBase.t) (r : Http.Response) (body : Obj) (text : string)
    (prompt generated : Z) :
  Client.posted env vendor self = Ok (Http.Replied r) ->
  Http.status_code r = 200%Z ->
  Client.json_loads env (Http.text r) = Ok body ->
  Spec.success vendor body text prompt generated ->
  value (Client.request env vendor self)
  = Ok (LlmResponse.Make 200 (PyStr text)
          (LlmTokens.Make (PyInt prompt) (PyInt generated))).
Proof.
  intros Hp Hc Hl Hs. rewrite (request_posted _ _ _ _ Hp).
  exact (respond_success _ _ _ _ _ _ _ Hc Hl Hs).
Qed.

(** The success body of [test_request] for the Google client: 10 prompt
    tokens, 15 generated and 5 thinking tokens give (10, 20). *)
Lemma success_body_round_trip_witness :
  Spec.success Google Fixtures.google_body "response text" 10 20
  /\ value (Client.request
              (Fixtures.env Fixtures.resolver (Fixtures.success_reply Google))
              Google (Fixtures.client [Fixtures.turn "user" "test"] []))
     = Ok (LlmResponse.Make 200 (PyStr "response text")
             (LlmTokens.Make (PyInt 10) (PyInt 20))).
Proof.
  assert (Hs : Spec.success Google Fixtures.google_body "response text" 10 20).
  { unfold Spec.success, Spec.google_success, Fixtures.google_body.
    do 7 eexists. exists 15%Z, 5%Z.
    repeat split; try reflexivity; try (left; reflexivity). }
  split; [exact Hs |].
  exact (success_body_round_trip
           (Fixtures.env Fixtures.resolver (Fixtures.success_reply Google)) Google
           (Fixtures.client [Fixtures.turn "user" "test"] [])
           (Http.MkResponse 200 Fixtures.google_text) Fixtures.google_body
           "response text" 10 20 eq_refl eq_refl eq_refl Hs).
Defined.

(** C4.  In the Google payload build, when the final entry has the wire
    role user, every queued reference is fetched and the queue is emptied;
    a reference is embedded if and only if the resolver reports a size
    other than zero and the sizes embedded before it plus its own stay
    strictly under 10 MiB.  A reference that fails the test adds nothing
    to the running total, so a later one that fits is embedded.  (Sizes
    are byte counts; [sel] flags the embedded references.) *)
Theorem google_size_budget (env : Client.Env) (data_of : LlmFileUrl.t -> string)
    (self : LlmBase.t) (built : list LlmGoogle.Content) (c : LlmGoogle.Content) :
  LlmGoogle.build_contents (LlmBase.prompts self) [] = Ok built ->
  last built = Some c ->
  LlmGoogle.role c = "user" ->
  (forall f, In f (LlmBase.file_urls self) ->
     (0 <= FileContent.size (Client.base64_encoded_content_of env f))%Z) ->
  (forall f, In f (LlmBase.file_urls self) ->
     Client.decode_utf8 env
       (FileContent.content (Client.base64_encoded_content_of env f))
     = Ok (data_of f)) ->
  exists sel,
    List.length sel = List.length (LlmBase.file_urls self)
    /\ LlmGoogle.to_dict (Client.base64_encoded_content_of env)
         (Client.decode_utf8 env) self
       = MkRun
           (Ok (LlmGoogle.MkPayload
                  (LlmSettings.to_dict (LlmBase.settings self))
                  (removelast built
                   ++ [LlmGoogle.MkContent "user"
                         (LlmGoogle.parts c
                          ++ map (fun f =>
                                    LlmGoogle.InlineData
                                      (FileContent.mime_type
                                         (Client.base64_encoded_content_of env f))
                                      (data_of f))
                               (Spec.chosen sel (LlmBase.file_urls self)))])))
           [] (LlmBase.file_urls self)
    /\ forall i f,
         nth_error (LlmBase.file_urls self) i = Some f ->
         (nth i sel false = true
          <-> FileContent.size (Client.base64_encoded_content_of env f) <> 0%Z
              /\ (Spec.total_size (Client.base64_encoded_content_of env)
                    (Spec.chosen (firstn i sel) (firstn i (LlmBase.file_urls self)))
                  + FileContent.size (Client.base64_encoded_content_of env f)
                  < 10 * 1024 * 1024)%Z).
Proof.
  intros Hb L U Hpos Hdec.
  destruct (google_embed_budget (Client.base64_encoded_content_of env)
              (Client.decode_utf8 env) data_of (LlmBase.file_urls self) 0%Z
              (LlmGoogle.parts c) Hpos Hdec) as (sel & Hlen & E & Hsel).
  exists sel. split; [exact Hlen |]. split; [| exact Hsel].
  unfold LlmGoogle.to_dict. rewrite Hb, L, U. simpl.
  destruct (LlmBase.file_urls self) as [| f rest] eqn:Q.
  - destruct sel; [| discriminate Hlen]. simpl. rewrite app_nil_r.
    destruct c as [role parts]. simpl in *. subst role.
    now rewrite <- (last_Some _ _ L).
  - rewrite E. reflexivity.
Qed.

(** The six files of [test_to_dict_with_files]: 4, 3 and 2 MiB are
    embedded, the two next ones of 2 MiB are not, the last, one byte
    under 1 MiB, is. *)
Lemma google_size_budget_witness :
  exists sel,
    sel = [true; true; true; false; false; true]
    /\ value (LlmGoogle.to_dict Fixtures.resolver Codec.decode_utf8
                (Fixtures.client [Fixtures.turn "user" "the prompt"]
                   Fixtures.six_files))
       = Ok (LlmGoogle.MkPayload [("model", PyStr "test_model")]
               [LlmGoogle.MkContent "user"
                  [LlmGoogle.Text "the prompt";
                   LlmGoogle.InlineData "type1" "Y29udGVudDE=";
                   LlmGoogle.InlineData "type2" "Y29udGVudDI=";
                   LlmGoogle.InlineData "type3" "Y29udGVudDM=";
                   LlmGoogle.InlineData "type6" "Y29udGVudDY="]])
    /\ forall i f,
         nth_error Fixtures.six_files i = Some f ->
         (nth i sel false = true
          <-> FileContent.size (Fixtures.resolver f) <> 0%Z
              /\ (Spec.total_size Fixtures.resolver
                    (Spec.chosen (firstn i sel) (firstn i Fixtures.six_files))
                  + FileContent.size (Fixtures.resolver f)
                  < 10 * 1024 * 1024)%Z).
Proof.
  pose (env := Fixtures.env Fixtures.resolver Fixtures.connection_error).
  pose (data_of := fun f : LlmFileUrl.t =>
          string_of_list_byte (FileContent.content (Fixtures.resolver f))).
  pose (self := Fixtures.client [Fixtures.turn "user" "the prompt"]
                  Fixtures.six_files).
  assert (Hpos : forall f, In f (LlmBase.file_urls self) ->
            (0 <= FileContent.size (Client.base64_encoded_content_of env f))%Z).
  { intros f [<- | [<- | [<- | [<- | [<- | [<- | []]]]]]]; vm_compute; discriminate. }
  assert (Hdec : forall f, In f (LlmBase.file_urls self) ->
            Client.decode_utf8 env
              (FileContent.content (Client.base64_encoded_content_of env f))
            = Ok (data_of f)).
  { intros f [<- | [<- | [<- | [<- | [<- | [<- | []]]]]]]; vm_compute; reflexivity. }
  destruct (google_size_budget env data_of self
              [LlmGoogle.MkContent "user" [LlmGoogle.Text "the prompt"]]
              (LlmGoogle.MkContent "user" [LlmGoogle.Text "the prompt"])
              eq_refl eq_refl eq_refl Hpos Hdec) as (sel & Hlen & E & Hsel).
  exists sel. split; [| split; [| exact Hsel]].
  - destruct sel as [| b0 [| b1 [| b2 [| b3 [| b4 [| b5 [| ? ?]]]]]]];
      try discriminate Hlen.
    pose proof (Hsel 0 _ eq_refl) as H0. pose proof (Hsel 1 _ eq_refl) as H1.
    pose proof (Hsel 2 _ eq_refl) as H2.
    simpl in H0, H1, H2.
    assert (b0 = true) as -> by (apply H0; vm_compute; split; congruence).
    assert (b1 = true) as -> by (apply H1; vm_compute; split; congruence).
    assert (b2 = true) as -> by (apply H2; vm_compute; split; congruence).
    pose proof (Hsel 3 _ eq_refl) as H3. simpl in H3.
    assert (b3 = false) as ->.
    { destruct b3; [| reflexivity]. destruct (proj1 H3 eq_refl) as [_ H].
      vm_compute in H. discriminate H. }
    pose proof (Hsel 4 _ eq_refl) as H4. simpl in H4.
    assert (b4 = false) as ->.
    { destruct b4; [| reflexivity]. destruct (proj1 H4 eq_refl) as [_ H].
      vm_compute in H. discriminate H. }
    pose proof (Hsel 5 _ eq_refl) as H5. simpl in H5.
    assert (b5 = true) as -> by (apply H5; vm_compute; split; congruence).
    reflexivity.
  - vm_compute. reflexivity.
Defined.

(** C5.  [attemptRequests(maxAttempts)] calls the request over and over
    and stops on status 200 only; it returns every answer in order.  When
    the first 200 is the answer of call [k] (from 0) within the budget,
    the result is the [k + 1] answers up to it, of length
    [min (k + 1) maxAttempts]; when no call within the budget answers 200,
    the result is the [maxAttempts] answers followed by one synthetic
    result, status 429, a text with the budget, zero tokens, of length
    [maxAttempts + 1]. *)
Theorem attempt_requests_results {W : Type} (request : W -> LlmResponse.t * W)
    (attempts : nat) (w : W) :
  (forall k,
     k < attempts ->
     LlmResponse.code (LlmBase.nth_response request w k) = 200%Z ->
     (forall j, j < k ->
        LlmResponse.code (LlmBase.nth_response request w j) <> 200%Z) ->
     LlmBase.attempt_requests request attempts w
     = (map (LlmBase.nth_response request w) (seq 0 (S k)),
        LlmBase.world_after request (S k) w)
     /\ List.length (fst (LlmBase.attempt_requests request attempts w))
        = Nat.min (S k) attempts)
  /\ ((forall k, k < attempts ->
         LlmResponse.code (LlmBase.nth_response request w k) <> 200%Z) ->
      LlmBase.attempt_requests request attempts w
      = (map (LlmBase.nth_response request w) (seq 0 attempts)
           ++ [LlmResponse.Make 429
                 (PyStr ("Http error: max attempts (" ++ str_of_nat attempts
                         ++ ") exceeded."))
                 (LlmTokens.Make (PyInt 0) (PyInt 0))],
         LlmBase.world_after request attempts w)
      /\ List.length (fst (LlmBase.attempt_requests request attempts w))
         = attempts + 1).
Proof.
  split.
  - intros k Hk Hok Hbefore. unfold LlmBase.attempt_requests.
    rewrite (attempt_loop_success request attempts k attempts w [] Hk Hok Hbefore).
    split; [reflexivity |].
    cbn [fst]. rewrite app_nil_l, length_map, length_seq. symmetry.
    apply Nat.min_l. exact Hk.
  - intros Hnone. unfold LlmBase.attempt_requests.
    rewrite (attempt_loop_exhausted request attempts attempts w [] Hnone).
    split; [reflexivity |].
    cbn [fst]. now rewrite app_nil_l, length_app, length_map, length_seq.
Qed.

(** The second case of [test_attempt_requests]: budget 3, the answers 429
    then 200; two results come back. *)
Lemma attempt_requests_results_witness :
  LlmBase.attempt_requests Fixtures.scripted 3
    (Fixtures.answer 429 "rate limit" 0 0, [Fixtures.answer 200 "success" 10 20])
  = ([Fixtures.answer 429 "rate limit" 0 0; Fixtures.answer 200 "success" 10 20],
     (Fixtures.answer 200 "success" 10 20, []))
  /\ List.length
       (fst (LlmBase.attempt_requests Fixtures.scripted 3
               (Fixtures.answer 429 "rate limit" 0 0,
                [Fixtures.answer 200 "success" 10 20])))
     = Nat.min 2 3.
Proof.
  apply (proj1 (attempt_requests_results Fixtures.scripted 3
                  (Fixtures.answer 429 "rate limit" 0 0,
                   [Fixtures.answer 200 "success" 10 20])) 1).
  - auto.
  - reflexivity.
  - intros [| j] Hj; [discriminate | inversion Hj as [| ? H]; inversion H].
Defined.

(** C8.  [addPrompt] of a system turn replaces the text of a system turn
    at index 0 in place, every other stored turn keeping its position and
    content; without a system turn at index 0 it inserts the new turn at
    index 0; a user or model turn is appended. *)
Theorem add_prompt_system_first (self : LlmBase.t) :
  (forall text first rest,
     LlmBase.prompts self = first :: rest ->
     LlmTurn.role first = "system" ->
     LlmBase.prompts (LlmBase.add_prompt self (LlmTurn.Make "system" text))
     = LlmTurn.Make "system" text :: rest
     /\ forall i,
          nth_error
            (LlmBase.prompts (LlmBase.add_prompt self (LlmTurn.Make "system" text)))
            (S i)
          = nth_error (LlmBase.prompts self) (S i))
  /\ (forall text,
        (forall first rest,
           LlmBase.prompts self = first :: rest -> LlmTurn.role first <> "system") ->
        LlmBase.prompts (LlmBase.add_prompt self (LlmTurn.Make "system" text))
        = LlmTurn.Make "system" text :: LlmBase.prompts self)
  /\ (forall turn,
        LlmTurn.role turn = "user" \/ LlmTurn.role turn = "model" ->
        LlmBase.prompts (LlmBase.add_prompt self turn)
        = LlmBase.prompts self ++ [turn]).
Proof.
  split; [| split].
  - intros text first rest Hp Hr.
    unfold LlmBase.add_prompt, LlmBase.set_system_prompt. simpl.
    rewrite Hp, Hr. simpl. split; reflexivity.
  - intros text Hno.
    unfold LlmBase.add_prompt, LlmBase.set_system_prompt. simpl.
    destruct (LlmBase.prompts self) as [| first rest] eqn:Hp; [reflexivity |].
    destruct (String.eqb_spec (LlmTurn.role first) LlmBase.ROLE_SYSTEM) as [E | _];
      [now destruct (Hno first rest eq_refl) | reflexivity].
  - intros [role text] [H | H]; simpl in H; subst role; reflexivity.
Qed.

(** The steps of [test_set_system_prompt]: system1 and user1 are stored,
    system2 replaces system1 and user1 stays second. *)
Lemma add_prompt_system_first_witness :
  LlmBase.prompts
    (LlmBase.add_prompt
       (Fixtures.client [LlmTurn.Make "system" ["system1"];
                         LlmTurn.Make "user" ["user1"]] [])
       (LlmTurn.Make "system" ["system2"]))
  = [LlmTurn.Make "system" ["system2"]; LlmTurn.Make "user" ["user1"]].
Proof.
  exact (proj1 (proj1 (add_prompt_system_first
                         (Fixtures.client [LlmTurn.Make "system" ["system1"];
                                           LlmTurn.Make "user" ["user1"]] []))
                  ["system2"] (LlmTurn.Make "system" ["system1"])
                  [LlmTurn.Make "user" ["user1"]] eq_refl eq_refl)).
Defined.

(** C9.  On a 200 reply the Anthropic client returns the text of the
    first content block only, and the Google client the text of the first
    part of the first candidate only: whatever the blocks, parts and
    candidates after the first hold, text included, they are ignored, not
    concatenated. *)
Theorem first_block_only (env : Client.Env) (self : LlmBase.t) (r : Http.Response)
    (items usage : list (string * Obj)) (text : string) (prompt generated : Z) :
  Http.status_code r = 200%Z ->
  Client.json_loads env (Http.text r) = Ok (PyDict items) ->
  (forall block blocks,
     Client.posted env Anthropic self = Ok (Http.Replied r) ->
     lookup "content" items = Some (PyList (PyDict block :: blocks)) ->
     lookup "text" block = Some (PyStr text) ->
     Spec.usage_of "usage" items usage ->
     Spec.token "input_tokens" usage prompt ->
     Spec.token "output_tokens" usage generated ->
     value (Client.request env Anthropic self)
     = Ok (LlmResponse.Make 200 (PyStr text)
             (LlmTokens.Make (PyInt prompt) (PyInt generated))))
  /\ (forall candidate candidates content part parts answered thought,
        Client.posted env Google self = Ok (Http.Replied r) ->
        lookup "candidates" items = Some (PyList (PyDict candidate :: candidates)) ->
        lookup "content" candidate = Some (PyDict content) ->
        lookup "parts" content = Some (PyList (PyDict part :: parts)) ->
        lookup "text" part = Some (PyStr text) ->
        Spec.usage_of "usageMetadata" items usage ->
        Spec.token "promptTokenCount" usage prompt ->
        Spec.token "candidatesTokenCount" usage answered ->
        Spec.token "thoughtsTokenCount" usage thought ->
        generated = (answered + thought)%Z ->
        value (Client.request env Google self)
        = Ok (LlmResponse.Make 200 (PyStr text)
                (LlmTokens.Make (PyInt prompt) (PyInt generated)))).
Proof.
  intros Hc Hl. split.
  - intros block blocks Hp H1 H2 H3 H4 H5.
    rewrite (request_posted _ _ _ _ Hp).
    apply (respond_success env Anthropic r (PyDict items)); try assumption.
    now exists items, block, blocks, usage.
  - intros candidate candidates content part parts answered thought
      Hp H1 H2 H3 H4 H5 H6 H7 H8 H9.
    rewrite (request_posted _ _ _ _ Hp).
    apply (respond_success env Google r (PyDict items)); try assumption.
    exists items, candidate, candidates, content, part, parts, usage,
      answered, thought.
    repeat split; assumption.
Qed.

(** A body with two text blocks, first and second, gives first. *)
Lemma first_block_only_witness :
  value (Client.request
           (Fixtures.env Fixtures.resolver
              (Http.Replied (Http.MkResponse 200 Fixtures.two_blocks_text)))
           Anthropic (Fixtures.client [Fixtures.turn "user" "test"] []))
  = Ok (LlmResponse.Make 200 (PyStr "first") (LlmTokens.Make (PyInt 0) (PyInt 0))).
Proof.
  apply (proj1 (first_block_only
                  (Fixtures.env Fixtures.resolver
                     (Http.Replied (Http.MkResponse 200 Fixtures.two_blocks_text)))
                  (Fixtures.client [Fixtures.turn "user" "test"] [])
                  (Http.MkResponse 200 Fixtures.two_blocks_text)
                  [("content", PyList [PyDict [("text", PyStr "first")];
                                       PyDict [("text", PyStr "second")]])]
                  [] "first" 0 0 eq_refl eq_refl)
           [("text", PyStr "first")] [PyDict [("text", PyStr "second")]]).
  - reflexivity.
  - reflexivity.
  - reflexivity.
  - right. split; reflexivity.
  - right. split; reflexivity.
  - right. split; reflexivity.
Defined.

(** * Further properties of the Anthropic and Google clients *)

Section AnthropicAttachments.

Variable resolve : LlmFileUrl.t -> FileContent.t.
Variable b64decode : bytes -> Result bytes.
Variable decode : bytes -> Result string.

Let embed_files := LlmAnthropic.embed_files resolve b64decode decode.

(** The loop when every text reference decodes: one block per reference
    of a known kind, in queue order. *)
Lemma anthropic_embed_all (data_of : LlmFileUrl.t -> string) file_urls :
  forall blocks,
  (forall f, In f file_urls -> LlmFileUrl.type f = TEXT ->
     exists raw,
       b64decode (FileContent.content (resolve f)) = Ok raw
       /\ decode raw = Ok (data_of f)) ->
  embed_files file_urls blocks
  = MkRun (Ok (blocks ++ flat_map (Behaviour.anthropic_blocks data_of) file_urls))
      [] (filter Spec.is_text file_urls).
Proof.
  induction file_urls as [| f rest IH]; intros blocks Hd; simpl.
  - now rewrite app_nil_r.
  - assert (Hrest : forall f', In f' rest -> LlmFileUrl.type f' = TEXT ->
              exists raw,
                b64decode (FileContent.content (resolve f')) = Ok raw
                /\ decode raw = Ok (data_of f'))
      by (intros f' Hin; apply Hd; now right).
    unfold LlmAnthropic.item_of, Spec.is_text, Behaviour.anthropic_blocks.
    fold embed_files. destruct (LlmFileUrl.type f) eqn:T.
    + rewrite (IH _ Hrest). simpl. now rewrite <- app_assoc.
    + rewrite (IH _ Hrest). simpl. now rewrite <- app_assoc.
    + destruct (Hd f (or_introl eq_refl) T) as (raw & E1 & E2).
      rewrite E1. simpl. rewrite E2. simpl.
      rewrite (IH _ Hrest). simpl. now rewrite <- app_assoc.
    + rewrite (IH _ Hrest). reflexivity.
Qed.

(** The loop when a text reference does not decode: the references
    before it and the reference itself are gone from the queue. *)
Lemma anthropic_embed_raises before f after e : forall blocks,
  (forall f', In f' before -> LlmFileUrl.type f' = TEXT ->
     exists raw data,
       b64decode (FileContent.content (resolve f')) = Ok raw
       /\ decode raw = Ok data) ->
  LlmFileUrl.type f = TEXT ->
  (raw <- b64decode (FileContent.content (resolve f)) ;; decode raw) = Raise e ->
  embed_files (before ++ f :: after) blocks
  = MkRun (Raise e) after (filter Spec.is_text before ++ [f]).
Proof.
  induction before as [| f0 rest IH]; intros blocks Hd T E; simpl.
  - unfold LlmAnthropic.item_of. rewrite T.
    destruct (b64decode (FileContent.content (resolve f))) as [raw | e0];
      simpl in *.
    + now rewrite E.
    + now injection E as ->.
  - assert (Hrest : forall f', In f' rest -> LlmFileUrl.type f' = TEXT ->
              exists raw data,
                b64decode (FileContent.content (resolve f')) = Ok raw
                /\ decode raw = Ok data)
      by (intros f' Hin; apply Hd; now right).
    unfold LlmAnthropic.item_of, Spec.is_text. fold embed_files.
    destruct (LlmFileUrl.type f0) eqn:T0.
    + now rewrite (IH _ Hrest T E).
    + now rewrite (IH _ Hrest T E).
    + destruct (Hd f0 (or_introl eq_refl) T0) as (raw & data & E1 & E2).
      rewrite E1. simpl. rewrite E2. simpl. now rewrite (IH _ Hrest T E).
    + now rewrite (IH _ Hrest T E).
Qed.

End AnthropicAttachments.

Lemma snoc_last_identity {A : Type} (l : list A) (a : A) :
  last l = Some a -> removelast l ++ [a] = l.
Proof. intros H. symmetry. now apply last_Some. Qed.

(** C10.  In the Anthropic payload build, a queued text reference on
    which the resolver failed (empty content, size zero) is fetched and
    embedded all the same, with no size or validity test: when the final
    entry has the wire role user, the payload holds, at the place of that
    reference among the attachment blocks, a plain-text document block
    whose data is the empty string; the blocks of the references queued
    before and after it stand around it, and the queue is left empty.
    (Decoding nothing gives nothing, for base64 and for UTF-8.) *)
Theorem failed_text_reference_embedded (env : Client.Env) (self : LlmBase.t)
    (built : list LlmAnthropic.Message) (m : LlmAnthropic.Message)
    (before after : list LlmFileUrl.t) (f : LlmFileUrl.t) :
  LlmAnthropic.build_messages (LlmBase.prompts self) [] = Ok built ->
  last built = Some m ->
  LlmAnthropic.role m = "user" ->
  LlmBase.file_urls self = before ++ f :: after ->
  LlmFileUrl.type f = TEXT ->
  Client.base64_encoded_content_of env f = FileContent.Make "" [] 0 ->
  Client.standard_b64decode env [] = Ok [] ->
  Client.decode_utf8 env [] = Ok "" ->
  Spec.attachments_decode env Anthropic (before ++ after) ->
  LlmAnthropic.to_dict (Client.base64_encoded_content_of env)
    (Client.standard_b64decode env) (Client.decode_utf8 env) self
  = MkRun
      (Ok (LlmAnthropic.MkPayload
             (LlmSettings.to_dict (LlmBase.settings self))
             (removelast built
              ++ [LlmAnthropic.MkMessage "user"
                    (LlmAnthropic.content m
                     ++ flat_map
                          (Behaviour.anthropic_blocks (Behaviour.anthropic_text env))
                          before
                     ++ LlmAnthropic.DocumentText ""
                        :: flat_map
                             (Behaviour.anthropic_blocks
                                (Behaviour.anthropic_text env))
                             after)])))
      [] (filter Spec.is_text before ++ f :: filter Spec.is_text after).
Proof.
  intros Hb L U Q T C E1 E2 Hd.
  assert (Hf : Behaviour.anthropic_text env f = "").
  { unfold Behaviour.anthropic_text. rewrite C. simpl. rewrite E1. simpl.
    now rewrite E2. }
  assert (Hall : forall f', In f' (before ++ f :: after) ->
            LlmFileUrl.type f' = TEXT ->
            exists raw,
              Client.standard_b64decode env
                (FileContent.content (Client.base64_encoded_content_of env f'))
              = Ok raw
              /\ Client.decode_utf8 env raw = Ok (Behaviour.anthropic_text env f')).
  { intros f' Hin T'. apply in_app_or in Hin as [Hin | [<- | Hin]].
    - destruct (Hd f' (in_or_app _ _ _ (or_introl Hin)) T')
        as (raw & data & R1 & R2).
      exists raw. split; [exact R1 |].
      unfold Behaviour.anthropic_text. rewrite R1. simpl. now rewrite R2.
    - exists []. rewrite Hf, C. simpl. now split.
    - destruct (Hd f' (in_or_app _ _ _ (or_intror Hin)) T')
        as (raw & data & R1 & R2).
      exists raw. split; [exact R1 |].
      unfold Behaviour.anthropic_text. rewrite R1. simpl. now rewrite R2. }
  unfold LlmAnthropic.to_dict. rewrite Hb, L, U, Q.
  assert (R : LlmAnthropic.embed_files (Client.base64_encoded_content_of env)
                (Client.standard_b64decode env) (Client.decode_utf8 env)
                (before ++ f :: after) (LlmAnthropic.content m)
              = MkRun
                  (Ok (LlmAnthropic.content m
                       ++ flat_map
                            (Behaviour.anthropic_blocks
                               (Behaviour.anthropic_text env)) before
                       ++ LlmAnthropic.DocumentText ""
                          :: flat_map
                               (Behaviour.anthropic_blocks
                                  (Behaviour.anthropic_text env)) after))
                  [] (filter Spec.is_text before ++ f :: filter Spec.is_text after)).
  { rewrite (anthropic_embed_all _ _ _ (Behaviour.anthropic_text env)
               (before ++ f :: after) _ Hall).
    rewrite flat_map_app, filter_app. simpl.
    unfold Behaviour.anthropic_blocks at 2. unfold Spec.is_text at 2.
    now rewrite T, Hf. }
  destruct before as [| f0 rest]; simpl in R |- *; now rewrite R.
Qed.

(** A resolver that fails every fetch, and a queue of a text reference, a
    pdf and a second text reference: two empty documents around the pdf. *)
Lemma failed_text_reference_embedded_witness :
  LlmAnthropic.to_dict Fixtures.failing_resolver Codec.standard_b64decode
    Codec.decode_utf8
    (Fixtures.client [Fixtures.turn "user" "the prompt"]
       [LlmFileUrl.Make "https://example.com/one.txt" TEXT;
        LlmFileUrl.Make "https://example.com/doc.pdf" PDF;
        LlmFileUrl.Make "https://example.com/two.txt" TEXT])
  = MkRun
      (Ok (LlmAnthropic.MkPayload [("model", PyStr "test_model")]
             [LlmAnthropic.MkMessage "user"
                [LlmAnthropic.Text "the prompt";
                 LlmAnthropic.DocumentText "";
                 LlmAnthropic.DocumentUrl "https://example.com/doc.pdf";
                 LlmAnthropic.DocumentText ""]]))
      []
      [LlmFileUrl.Make "https://example.com/one.txt" TEXT;
       LlmFileUrl.Make "https://example.com/two.txt" TEXT].
Proof.
  refine (failed_text_reference_embedded
            (Fixtures.env Fixtures.failing_resolver Fixtures.connection_error)
            (Fixtures.client [Fixtures.turn "user" "the prompt"]
               [LlmFileUrl.Make "https://example.com/one.txt" TEXT;
                LlmFileUrl.Make "https://example.com/doc.pdf" PDF;
                LlmFileUrl.Make "https://example.com/two.txt" TEXT])
            [LlmAnthropic.MkMessage "user" [LlmAnthropic.Text "the prompt"]]
            (LlmAnthropic.MkMessage "user" [LlmAnthropic.Text "the prompt"])
            []
            [LlmFileUrl.Make "https://example.com/doc.pdf" PDF;
             LlmFileUrl.Make "https://example.com/two.txt" TEXT]
            (LlmFileUrl.Make "https://example.com/one.txt" TEXT)
            eq_refl eq_refl eq_refl eq_refl eq_refl eq_refl eq_refl eq_refl _).
  intros f0 [<- | [<- | []]] T; try discriminate T.
  exists [], "". split; reflexivity.
Defined.

(** X1.  In the Anthropic payload build, when the final entry has the
    wire role user and the text references decode, every queued reference
    of kind pdf, image or text gives one block, whatever its size, in
    queue order after the blocks of the turns; a reference of another kind
    gives none; the resolver is called for the text references only, in
    queue order; the queue is left empty. *)
Theorem anthropic_attachments (env : Client.Env) (data_of : LlmFileUrl.t -> string)
    (self : LlmBase.t) (built : list LlmAnthropic.Message)
    (m : LlmAnthropic.Message) :
  LlmAnthropic.build_messages (LlmBase.prompts self) [] = Ok built ->
  last built = Some m ->
  LlmAnthropic.role m = "user" ->
  (forall f, In f (LlmBase.file_urls self) -> LlmFileUrl.type f = TEXT ->
     exists raw,
       Client.standard_b64decode env
         (FileContent.content (Client.base64_encoded_content_of env f)) = Ok raw
       /\ Client.decode_utf8 env raw = Ok (data_of f)) ->
  LlmAnthropic.to_dict (Client.base64_encoded_content_of env)
    (Client.standard_b64decode env) (Client.decode_utf8 env) self
  = MkRun
      (Ok (LlmAnthropic.MkPayload
             (LlmSettings.to_dict (LlmBase.settings self))
             (removelast built
              ++ [LlmAnthropic.MkMessage "user"
                    (LlmAnthropic.content m
                     ++ flat_map (Behaviour.anthropic_blocks data_of)
                          (LlmBase.file_urls self))])))
      [] (filter Spec.is_text (LlmBase.file_urls self)).
Proof.
  intros Hb L U Hd. unfold LlmAnthropic.to_dict. rewrite Hb, L, U. simpl.
  destruct (LlmBase.file_urls self) as [| f rest] eqn:Q.
  - simpl. rewrite app_nil_r. destruct m as [role content]. simpl in *.
    subst role. now rewrite (snoc_last_identity _ _ L).
  - now rewrite (anthropic_embed_all _ _ _ data_of (f :: rest) _ Hd).
Qed.

(** The user turn and the four references of [test_to_dict__with_files]. *)
Lemma anthropic_attachments_witness :
  LlmAnthropic.to_dict Fixtures.resolver Codec.standard_b64decode Codec.decode_utf8
    (Fixtures.client [Fixtures.turn "user" "the prompt"] Fixtures.four_files)
  = MkRun
      (Ok (LlmAnthropic.MkPayload [("model", PyStr "test_model")]
             [LlmAnthropic.MkMessage "user"
                [LlmAnthropic.Text "the prompt";
                 LlmAnthropic.DocumentUrl "https://example.com/doc.pdf";
                 LlmAnthropic.ImageUrl "https://example.com/pic.jpg";
                 LlmAnthropic.DocumentText "theContent"]]))
      [] [LlmFileUrl.Make "https://example.com/text.txt" TEXT].
Proof.
  apply (anthropic_attachments
           (Fixtures.env Fixtures.resolver Fixtures.connection_error)
           (fun _ => "theContent")
           (Fixtures.client [Fixtures.turn "user" "the prompt"] Fixtures.four_files)
           [LlmAnthropic.MkMessage "user" [LlmAnthropic.Text "the prompt"]]
           (LlmAnthropic.MkMessage "user" [LlmAnthropic.Text "the prompt"])
           eq_refl eq_refl eq_refl).
  intros f [<- | [<- | [<- | [<- | []]]]] T; try discriminate T.
  eexists. split; vm_compute; reflexivity.
Defined.

(** X2.  In the Anthropic payload build, when the final entry has the
    wire role user and a queued text reference does not decode (base64,
    then UTF-8), the build raises that error; the references before it and
    the reference itself are gone from the queue, the ones after it are
    still queued; a request raises the same error and leaves the same
    queue, whatever the transport would answer. *)
Theorem anthropic_decode_failure (env : Client.Env) (self : LlmBase.t)
    (built : list LlmAnthropic.Message) (m : LlmAnthropic.Message)
    (before after : list LlmFileUrl.t) (f : LlmFileUrl.t) (e : Exn) :
  LlmAnthropic.build_messages (LlmBase.prompts self) [] = Ok built ->
  last built = Some m ->
  LlmAnthropic.role m = "user" ->
  LlmBase.file_urls self = before ++ f :: after ->
  Spec.attachments_decode env Anthropic before ->
  LlmFileUrl.type f = TEXT ->
  (raw <- Client.standard_b64decode env
            (FileContent.content (Client.base64_encoded_content_of env f)) ;;
   Client.decode_utf8 env raw) = Raise e ->
  value (Client.to_dict env Anthropic self) = Raise e
  /\ file_urls_after (Client.to_dict env Anthropic self) = after
  /\ value (Client.request env Anthropic self) = Raise e
  /\ file_urls_after (Client.request env Anthropic self) = after.
Proof.
  intros Hb L U Q Hd T E.
  assert (R : LlmAnthropic.to_dict (Client.base64_encoded_content_of env)
                (Client.standard_b64decode env) (Client.decode_utf8 env) self
              = MkRun (Raise e) after (filter Spec.is_text before ++ [f])).
  { unfold LlmAnthropic.to_dict. rewrite Hb, L, U, Q.
    destruct before as [| f0 rest];
      [rewrite (anthropic_embed_raises _ _ _ [] f after e _ Hd T E)
      | rewrite (anthropic_embed_raises _ _ _ (f0 :: rest) f after e _ Hd T E)];
      reflexivity. }
  unfold Client.to_dict, Client.request, LlmAnthropic.request, Client.lift.
  rewrite R. repeat split.
Qed.

(** A text reference whose bytes are not UTF-8, between two others. *)
Lemma anthropic_decode_failure_witness :
  let resolve := fun f : LlmFileUrl.t =>
    if LlmFileUrl.url f =? "latin1.txt"
    then FileContent.Make "text/plain" (list_byte_of_string "6Q==") 1
    else Fixtures.resolver f in
  let self :=
    Fixtures.client [Fixtures.turn "user" "the prompt"]
      [LlmFileUrl.Make "a.pdf" PDF; LlmFileUrl.Make "latin1.txt" TEXT;
       LlmFileUrl.Make "b.jpg" IMAGE] in
  value (Client.to_dict (Fixtures.env resolve Fixtures.connection_error)
           Anthropic self) = Raise UnicodeDecodeError
  /\ file_urls_after (Client.to_dict (Fixtures.env resolve Fixtures.connection_error)
                        Anthropic self) = [LlmFileUrl.Make "b.jpg" IMAGE]
  /\ value (Client.request (Fixtures.env resolve Fixtures.connection_error)
              Anthropic self) = Raise UnicodeDecodeError
  /\ file_urls_after (Client.request (Fixtures.env resolve Fixtures.connection_error)
                        Anthropic self) = [LlmFileUrl.Make "b.jpg" IMAGE].
Proof.
  intros resolve self.
  apply (anthropic_decode_failure (Fixtures.env resolve Fixtures.connection_error)
           self [LlmAnthropic.MkMessage "user" [LlmAnthropic.Text "the prompt"]]
           (LlmAnthropic.MkMessage "user" [LlmAnthropic.Text "the prompt"])
           [LlmFileUrl.Make "a.pdf" PDF] [LlmFileUrl.Make "b.jpg" IMAGE]
           (LlmFileUrl.Make "latin1.txt" TEXT) UnicodeDecodeError
           eq_refl eq_refl eq_refl eq_refl).
  - intros f0 [<- | []] T. discriminate T.
  - reflexivity.
  - vm_compute. reflexivity.
Defined.

Section GoogleBudget.

Variable resolve : LlmFileUrl.t -> FileContent.t.
Variable decode : bytes -> Result string.

Let embed_files := LlmGoogle.embed_files resolve decode.


End GoogleBudget.



(** X4.  Attachments go out once.  When a build of the Anthropic or of
    the Google client has embedded the queue (final entry of wire role
    user, attachments that decode), a second build on the same turns finds
    the queue empty, fetches nothing, and its payload holds the blocks of
    the turns alone. *)
Theorem second_build_without_attachments (env : Client.Env) (self : LlmBase.t) :
  (Spec.attachments_decode env Anthropic (LlmBase.file_urls self) ->
   forall built m,
     LlmAnthropic.build_messages (LlmBase.prompts self) [] = Ok built ->
     last built = Some m ->
     LlmAnthropic.role m = "user" ->
     LlmAnthropic.to_dict (Client.base64_encoded_content_of env)
       (Client.standard_b64decode env) (Client.decode_utf8 env)
       (Behaviour.after_run self
          (LlmAnthropic.to_dict (Client.base64_encoded_content_of env)
             (Client.standard_b64decode env) (Client.decode_utf8 env) self))
     = MkRun (Ok (LlmAnthropic.MkPayload
                    (LlmSettings.to_dict (LlmBase.settings self)) built)) [] [])
  /\ (Spec.attachments_decode env Google (LlmBase.file_urls self) ->
      forall built c,
        LlmGoogle.build_contents (LlmBase.prompts self) [] = Ok built ->
        last built = Some c ->
        LlmGoogle.role c = "user" ->
        LlmGoogle.to_dict (Client.base64_encoded_content_of env)
          (Client.decode_utf8 env)
          (Behaviour.after_run self
             (LlmGoogle.to_dict (Client.base64_encoded_content_of env)
                (Client.decode_utf8 env) self))
        = MkRun (Ok (LlmGoogle.MkPayload
                       (LlmSettings.to_dict (LlmBase.settings self)) built)) [] []).
Proof.
  split.
  - intros Hd built m Hb L U.
    refine (anthropic_to_dict_no_file _ _ _ (Behaviour.after_run self _) built Hb _).
    unfold Behaviour.after_run. simpl.
    unfold LlmAnthropic.to_dict. rewrite Hb, L, U.
    destruct (LlmBase.file_urls self) as [| f rest] eqn:Q; [reflexivity |].
    destruct (anthropic_embed_drains _ _ _ (f :: rest) (LlmAnthropic.content m) Hd)
      as (out & E).
    now rewrite E.
  - intros Hd built c Hb L U.
    refine (google_to_dict_no_file _ _ (Behaviour.after_run self _) built Hb _).
    unfold Behaviour.after_run. simpl.
    unfold LlmGoogle.to_dict. rewrite Hb, L, U.
    destruct (LlmBase.file_urls self) as [| f rest] eqn:Q; [reflexivity |].
    destruct (google_embed_drains _ _ (f :: rest) 0%Z (LlmGoogle.parts c) Hd)
      as (out & E).
    now rewrite E.
Qed.

(** The six files of the Google test: the build after the first one sends
    the prompt alone. *)
Lemma second_build_without_attachments_witness :
  LlmGoogle.to_dict Fixtures.resolver Codec.decode_utf8
    (Behaviour.after_run
       (Fixtures.client [Fixtures.turn "user" "the prompt"] Fixtures.six_files)
       (LlmGoogle.to_dict Fixtures.resolver Codec.decode_utf8
          (Fixtures.client [Fixtures.turn "user" "the prompt"] Fixtures.six_files)))
  = MkRun (Ok (LlmGoogle.MkPayload [("model", PyStr "test_model")]
                 [LlmGoogle.MkContent "user" [LlmGoogle.Text "the prompt"]]))
      [] [].
Proof.
  refine (proj2 (second_build_without_attachments
                   (Fixtures.env Fixtures.resolver Fixtures.connection_error)
                   (Fixtures.client [Fixtures.turn "user" "the prompt"]
                      Fixtures.six_files))
            _ [LlmGoogle.MkContent "user" [LlmGoogle.Text "the prompt"]]
            (LlmGoogle.MkContent "user" [LlmGoogle.Text "the prompt"])
            eq_refl eq_refl eq_refl).
  intros f [<- | [<- | [<- | [<- | [<- | [<- | []]]]]]];
    eexists; vm_compute; reflexivity.
Defined.

Lemma anthropic_add_part_as_user messages p :
  LlmAnthropic.add_part messages (Behaviour.as_user p)
  = LlmAnthropic.add_part messages p.
Proof.
  unfold Behaviour.as_user, LlmAnthropic.add_part.
  destruct (String.eqb_spec (LlmTurn.role p) LlmBase.ROLE_SYSTEM) as [E | _];
    [now rewrite E | reflexivity].
Qed.

Lemma google_add_part_as_user contents p :
  LlmGoogle.add_part contents (Behaviour.as_user p)
  = LlmGoogle.add_part contents p.
Proof.
  unfold Behaviour.as_user, LlmGoogle.add_part.
  destruct (String.eqb_spec (LlmTurn.role p) LlmBase.ROLE_SYSTEM) as [E | _];
    [now rewrite E | reflexivity].
Qed.

Lemma anthropic_build_as_user prompts : forall messages,
  LlmAnthropic.build_messages (map Behaviour.as_user prompts) messages
  = LlmAnthropic.build_messages prompts messages.
Proof.
  induction prompts as [| p prompts IH]; intros messages; [reflexivity |].
  simpl. rewrite anthropic_add_part_as_user.
  destruct (LlmAnthropic.add_part messages p); simpl; [apply IH | reflexivity].
Qed.

Lemma google_build_as_user prompts : forall contents,
  LlmGoogle.build_contents (map Behaviour.as_user prompts) contents
  = LlmGoogle.build_contents prompts contents.
Proof.
  induction prompts as [| p prompts IH]; intros contents; [reflexivity |].
  simpl. rewrite google_add_part_as_user.
  destruct (LlmGoogle.add_part contents p); simpl; [apply IH | reflexivity].
Qed.

(** X5.  The Anthropic and the Google builder send a system turn exactly
    as they would send a user turn with the same text: taking every system
    turn of a store for a user turn changes nothing in the run of
    [to_dict], payload, queue and fetches. *)
Theorem system_turn_sent_as_user (env : Client.Env) (self : LlmBase.t) :
  LlmAnthropic.to_dict (Client.base64_encoded_content_of env)
    (Client.standard_b64decode env) (Client.decode_utf8 env)
    (LlmBase.with_prompts self (map Behaviour.as_user (LlmBase.prompts self)))
  = LlmAnthropic.to_dict (Client.base64_encoded_content_of env)
      (Client.standard_b64decode env) (Client.decode_utf8 env) self
  /\ LlmGoogle.to_dict (Client.base64_encoded_content_of env)
       (Client.decode_utf8 env)
       (LlmBase.with_prompts self (map Behaviour.as_user (LlmBase.prompts self)))
     = LlmGoogle.to_dict (Client.base64_encoded_content_of env)
         (Client.decode_utf8 env) self.
Proof.
  split.
  - unfold LlmAnthropic.to_dict. simpl. now rewrite anthropic_build_as_user.
  - unfold LlmGoogle.to_dict. simpl. now rewrite google_build_as_user.
Qed.

Lemma entry_role_of_turn {B : Type} (turns : list (string * B))
    (entries : list (string * list B)) (e : string * list B) :
  Spec.merged turns entries -> In e entries -> In (fst e) (map fst turns).
Proof.
  intros (_ & H2 & H3 & _) He. rewrite <- H2. apply in_flat_map.
  exists e. split; [exact He |].
  specialize (H3 e He). destruct (snd e); [contradiction | now left].
Qed.

Lemma merged_roles_alternate {B : Type} (other : string)
    (turns : list (string * B)) (entries : list (string * list B)) :
  Spec.merged turns entries ->
  (forall r, In r (map fst turns) -> r = "user" \/ r = other) ->
  Behaviour.alternate other (map fst entries).
Proof.
  intros Hm Hr before a b after E.
  apply map_eq_app in E as (l1 & l2 & -> & _ & E).
  apply map_eq_cons in E as (ea & l2' & -> & <- & E).
  apply map_eq_cons in E as (eb & l2'' & -> & <- & _).
  assert (Ha : In ea (l1 ++ ea :: eb :: l2''))
    by (apply in_or_app; right; now left).
  assert (Hb : In eb (l1 ++ ea :: eb :: l2''))
    by (apply in_or_app; right; right; now left).
  apply (entry_role_of_turn _ _ _ Hm), Hr in Ha, Hb.
  destruct Hm as (_ & _ & _ & H4). specialize (H4 l1 ea eb l2'' eq_refl).
  destruct Ha as [Ha | Ha], Hb as [Hb | Hb]; auto; congruence.
Qed.

Lemma with_attached_roles {B : Type} (entries : list (string * list B))
    (attached : list B) :
  map fst (Spec.with_attached entries attached) = map fst entries.
Proof.
  unfold Spec.with_attached. destruct (last entries) as [[role blocks] |] eqn:L;
    [| reflexivity].
  rewrite (last_Some _ _ L) at 2. now rewrite !map_app.
Qed.

Lemma stored_wire_roles (roles : string -> Result string) (other : string)
    (prompts : list LlmTurn.t) (r : string) :
  roles LlmBase.ROLE_SYSTEM = Ok "user" ->
  roles LlmBase.ROLE_USER = Ok "user" ->
  roles LlmBase.ROLE_MODEL = Ok other ->
  Spec.stored prompts ->
  In r (map (fun p => Spec.wire roles (LlmTurn.role p)) prompts) ->
  r = "user" \/ r = other.
Proof.
  intros R1 R2 R3 Hs Hin. apply in_map_iff in Hin as (p & <- & Hp).
  unfold Spec.stored in Hs. rewrite Forall_forall in Hs.
  apply Hs, known_role_cases in Hp as [-> | [-> | ->]]; unfold Spec.wire;
    rewrite ?R1, ?R2, ?R3; auto.
Qed.

(** X6.  In every payload the Anthropic client builds from stored turns,
    the roles of two entries that follow each other are user and
    assistant, in one order or the other, with or without attachments;
    likewise user and model for the Google client. *)
Theorem wire_roles_alternate (env : Client.Env) (self : LlmBase.t) :
  Spec.stored (LlmBase.prompts self) ->
  (forall payload,
     value (LlmAnthropic.to_dict (Client.base64_encoded_content_of env)
              (Client.standard_b64decode env) (Client.decode_utf8 env) self)
     = Ok payload ->
     Behaviour.alternate "assistant"
       (map LlmAnthropic.role (LlmAnthropic.messages payload)))
  /\ (forall payload,
        value (LlmGoogle.to_dict (Client.base64_encoded_content_of env)
                 (Client.decode_utf8 env) self) = Ok payload ->
        Behaviour.alternate "model"
          (map LlmGoogle.role (LlmGoogle.contents payload))).
Proof.
  intros Hs. split; intros payload Hp.
  - destruct (anthropic_build (LlmBase.prompts self) [] [] Hs merged_nil)
      as (built & Hb & Hm).
    destruct (anthropic_to_dict_attaches _ _ _ self built payload Hb Hp)
      as (attached & E).
    replace (map LlmAnthropic.role (LlmAnthropic.messages payload))
      with (map fst (Spec.anthropic_entries (LlmAnthropic.messages payload)))
      by (unfold Spec.anthropic_entries; now rewrite map_map).
    rewrite E, with_attached_roles.
    apply (merged_roles_alternate _ _ _ Hm).
    intros r Hr. unfold Spec.anthropic_turns in Hr. rewrite map_map in Hr.
    now apply (stored_wire_roles LlmAnthropic.roles "assistant"
                 (LlmBase.prompts self)).
  - destruct (google_build (LlmBase.prompts self) [] [] Hs merged_nil)
      as (built & Hb & Hm).
    destruct (google_to_dict_attaches _ _ self built payload Hb Hp)
      as (attached & E).
    replace (map LlmGoogle.role (LlmGoogle.contents payload))
      with (map fst (Spec.google_entries (LlmGoogle.contents payload)))
      by (unfold Spec.google_entries; now rewrite map_map).
    rewrite E, with_attached_roles.
    apply (merged_roles_alternate _ _ _ Hm).
    intros r Hr. unfold Spec.google_turns in Hr. rewrite map_map in Hr.
    now apply (stored_wire_roles LlmGoogle.roles "model" (LlmBase.prompts self)).
Qed.

(** The conversation of [test_to_dict]: user, assistant, user. *)
Lemma wire_roles_alternate_witness :
  Spec.stored (LlmBase.prompts Fixtures.conversation)
  /\ forall payload,
       value (LlmAnthropic.to_dict Fixtures.resolver Codec.standard_b64decode
                Codec.decode_utf8 Fixtures.conversation) = Ok payload ->
       Behaviour.alternate "assistant"
         (map LlmAnthropic.role (LlmAnthropic.messages payload)).
Proof.
  assert (Hs : Spec.stored (LlmBase.prompts Fixtures.conversation))
    by (vm_compute; repeat constructor).
  split; [exact Hs |].
  exact (proj1 (wire_roles_alternate
                  (Fixtures.env Fixtures.resolver Fixtures.connection_error)
                  Fixtures.conversation Hs)).
Defined.

Lemma unknown_role_lookup (role : string) :
  LlmBase.known_role role = false ->
  LlmAnthropic.roles role = Raise KeyError /\ LlmGoogle.roles role = Raise KeyError.
Proof.
  unfold LlmBase.known_role, LlmAnthropic.roles, LlmGoogle.roles. intros H.
  apply orb_false_iff in H as [H H3]. apply orb_false_iff in H as [H1 H2].
  now rewrite H1, H2, H3.
Qed.

Lemma anthropic_build_unknown prompts p : forall messages,
  In p prompts ->
  LlmBase.known_role (LlmTurn.role p) = false ->
  LlmAnthropic.build_messages prompts messages = Raise KeyError.
Proof.
  induction prompts as [| p0 prompts IH]; intros messages Hin Hp; [destruct Hin |].
  simpl. destruct (LlmBase.known_role (LlmTurn.role p0)) eqn:K.
  - destruct (anthropic_add_part messages p0 K) as (messages' & -> & _). simpl.
    destruct Hin as [-> | Hin]; [congruence | now apply IH].
  - unfold LlmAnthropic.add_part.
    now rewrite (proj1 (unknown_role_lookup _ K)).
Qed.

Lemma google_build_unknown prompts p : forall contents,
  In p prompts ->
  LlmBase.known_role (LlmTurn.role p) = false ->
  LlmGoogle.build_contents prompts contents = Raise KeyError.
Proof.
  induction prompts as [| p0 prompts IH]; intros contents Hin Hp; [destruct Hin |].
  simpl. destruct (LlmBase.known_role (LlmTurn.role p0)) eqn:K.
  - destruct (google_add_part contents p0 K) as (contents' & -> & _). simpl.
    destruct Hin as [-> | Hin]; [congruence | now apply IH].
  - unfold LlmGoogle.add_part.
    now rewrite (proj2 (unknown_role_lookup _ K)).
Qed.

(** X7.  A turn whose role is none of system, user and model, anywhere in
    the turn list, makes the build of the Anthropic and of the Google
    client raise [KeyError] (the lookup in [roles]); the error comes
    before the queue is touched: no reference is popped and none is
    fetched. *)
Theorem unknown_role_raises (env : Client.Env) (self : LlmBase.t) (p : LlmTurn.t) :
  In p (LlmBase.prompts self) ->
  LlmBase.known_role (LlmTurn.role p) = false ->
  LlmAnthropic.to_dict (Client.base64_encoded_content_of env)
    (Client.standard_b64decode env) (Client.decode_utf8 env) self
  = MkRun (Raise KeyError) (LlmBase.file_urls self) []
  /\ LlmGoogle.to_dict (Client.base64_encoded_content_of env)
       (Client.decode_utf8 env) self
     = MkRun (Raise KeyError) (LlmBase.file_urls self) [].
Proof.
  intros Hin Hp. split.
  - unfold LlmAnthropic.to_dict.
    now rewrite (anthropic_build_unknown _ p [] Hin Hp).
  - unfold LlmGoogle.to_dict.
    now rewrite (google_build_unknown _ p [] Hin Hp).
Qed.

(** A turn with the role of the Anthropic wire, assistant, between two
    user turns, and the four files queued. *)
Lemma unknown_role_raises_witness :
  LlmAnthropic.to_dict Fixtures.resolver Codec.standard_b64decode Codec.decode_utf8
    (Fixtures.client [Fixtures.turn "user" "a"; Fixtures.turn "assistant" "b";
                      Fixtures.turn "user" "c"] Fixtures.four_files)
  = MkRun (Raise KeyError) Fixtures.four_files [].
Proof.
  exact (proj1 (unknown_role_raises
                  (Fixtures.env Fixtures.resolver Fixtures.connection_error)
                  (Fixtures.client [Fixtures.turn "user" "a";
                                    Fixtures.turn "assistant" "b";
                                    Fixtures.turn "user" "c"] Fixtures.four_files)
                  (Fixtures.turn "assistant" "b")
                  (or_intror (or_introl eq_refl)) eq_refl)).
Defined.

(** ** Replies *)

Lemma bind_ok {A B : Type} (r : Result A) (k : A -> Result B) (b : B) :
  bind r k = Ok b -> exists a, r = Ok a /\ k a = Ok b.
Proof. destruct r as [a | e]; simpl; [now exists a | discriminate]. Qed.

(** X8.  On a reply with a status other than 200, the Anthropic and the
    Google client return the status, the body text as it is and zero
    tokens when the status is a member of [HTTPStatus]; when it is not,
    the request raises [ValueError]. *)
Theorem reply_with_other_status (env : Client.Env) (vendor : Vendor)
    (self : LlmBase.t) (r : Http.Response) :
  vendor <> Openai ->
  Client.posted env vendor self = Ok (Http.Replied r) ->
  Http.status_code r <> 200%Z ->
  value (Client.request env vendor self)
  = if is_HTTPStatus (Http.status_code r)
    then Ok (LlmResponse.Make (Http.status_code r) (PyStr (Http.text r)) no_tokens)
    else Raise ValueError.
Proof.
  intros _ Hp Hc. rewrite (request_posted _ _ _ _ Hp).
  apply Z.eqb_neq in Hc. rewrite (respond_other_status _ _ _ Hc).
  unfold HTTPStatus. now destruct (is_HTTPStatus (Http.status_code r)).
Qed.

(** Status 529, which the Anthropic service answers when it is
    overloaded. *)
Lemma reply_with_other_status_witness :
  value (Client.request
           (Fixtures.env Fixtures.resolver
              (Http.Replied (Http.MkResponse 529 "overloaded")))
           Anthropic (Fixtures.client [Fixtures.turn "user" "test"] []))
  = Raise ValueError.
Proof.
  refine (reply_with_other_status
            (Fixtures.env Fixtures.resolver
               (Http.Replied (Http.MkResponse 529 "overloaded")))
            Anthropic (Fixtures.client [Fixtures.turn "user" "test"] [])
            (Http.MkResponse 529 "overloaded") _ eq_refl _); discriminate.
Defined.

(** X9.  On a 200 reply, whatever error [json.loads] raises on the body
    comes out of the request of the Anthropic and of the Google client;
    and a body that decodes to anything but an object (a list, a string,
    a number, null) makes it raise [AttributeError]. *)
Theorem reply_not_an_object (env : Client.Env) (vendor : Vendor)
    (self : LlmBase.t) (r : Http.Response) :
  vendor <> Openai ->
  Client.posted env vendor self = Ok (Http.Replied r) ->
  Http.status_code r = 200%Z ->
  (forall e,
     Client.json_loads env (Http.text r) = Raise e ->
     value (Client.request env vendor self) = Raise e)
  /\ (forall body,
        Client.json_loads env (Http.text r) = Ok body ->
        (forall items, body <> PyDict items) ->
        value (Client.request env vendor self) = Raise AttributeError).
Proof.
  intros Hv Hp Hc. rewrite (request_posted _ _ _ _ Hp).
  split; [intros e Hl | intros body Hl Hb];
    (destruct vendor; [| | now destruct Hv]); simpl;
    unfold LlmAnthropic.respond, LlmAnthropic.on_reply,
      LlmGoogle.respond, LlmGoogle.on_reply;
    rewrite Hc, Hl; try reflexivity;
    (destruct body; try reflexivity; now destruct (Hb items)).
Qed.

(** A 200 reply with an HTML page for a body. *)
Lemma reply_not_an_object_witness :
  value (Client.request (Fixtures.env Fixtures.resolver Fixtures.html_page)
           Google (Fixtures.client [Fixtures.turn "user" "test"] []))
  = Raise JSONDecodeError.
Proof.
  refine (proj1 (reply_not_an_object
                   (Fixtures.env Fixtures.resolver Fixtures.html_page) Google
                   (Fixtures.client [Fixtures.turn "user" "test"] [])
                   (Http.MkResponse 200 "<html>Bad Gateway</html>")
                   _ eq_refl eq_refl) JSONDecodeError eq_refl).
  discriminate.
Defined.

(** X10.  On a 200 reply whose body is an object, the Anthropic client
    reads the text off the first content block, missing keys falling back
    on defaults: without a content key, or without a text key in the
    first block, the text is the empty string; the value of the text key
    is returned as it is, whatever its type; an empty content list makes
    the request raise [IndexError]. *)
Theorem anthropic_reply_defaults (env : Client.Env) (self : LlmBase.t)
    (r : Http.Response) (items usage : list (string * Obj)) (prompt generated : Z) :
  Client.posted env Anthropic self = Ok (Http.Replied r) ->
  Http.status_code r = 200%Z ->
  Client.json_loads env (Http.text r) = Ok (PyDict items) ->
  (lookup "content" items = Some (PyList []) ->
   value (Client.request env Anthropic self) = Raise IndexError)
  /\ (Spec.usage_of "usage" items usage ->
      Spec.token "input_tokens" usage prompt ->
      Spec.token "output_tokens" usage generated ->
      (lookup "content" items = None ->
       value (Client.request env Anthropic self)
       = Ok (LlmResponse.Make 200 (PyStr "")
               (LlmTokens.Make (PyInt prompt) (PyInt generated))))
      /\ (forall block blocks,
            lookup "content" items = Some (PyList (PyDict block :: blocks)) ->
            value (Client.request env Anthropic self)
            = Ok (LlmResponse.Make 200
                    match lookup "text" block with
                    | Some v => v
                    | None => PyStr ""
                    end
                    (LlmTokens.Make (PyInt prompt) (PyInt generated))))).
Proof.
  intros Hp Hc Hl. rewrite (request_posted _ _ _ _ Hp). simpl.
  unfold LlmAnthropic.respond, LlmAnthropic.on_reply. rewrite Hc, Hl.
  split.
  - intros H. cbn -[or]. now rewrite H.
  - intros H3 H4 H5. apply usage_get in H3.
    apply token_or in H4 as (v4 & G4 & O4), H5 as (v5 & G5 & O5).
    cbn -[get or]. rewrite H3. cbn -[get or]. rewrite G4, G5. split.
    + intros H. cbn -[or]. rewrite H. cbn -[or]. now rewrite O4, O5.
    + intros block blocks H. cbn -[or]. rewrite H. cbn -[or].
      destruct (lookup "text" block); cbn -[or]; now rewrite O4, O5.
Qed.

(** A body that is the empty object: empty text, no tokens. *)
Lemma anthropic_reply_defaults_witness :
  value (Client.request
           (Behaviour.env (Http.Replied (Http.MkResponse 200 "{}")))
           Anthropic (Fixtures.client [Fixtures.turn "user" "test"] []))
  = Ok (LlmResponse.Make 200 (PyStr "") (LlmTokens.Make (PyInt 0) (PyInt 0))).
Proof.
  refine (proj1 (proj2 (anthropic_reply_defaults
                          (Behaviour.env (Http.Replied (Http.MkResponse 200 "{}")))
                          (Fixtures.client [Fixtures.turn "user" "test"] [])
                          (Http.MkResponse 200 "{}") [] [] 0 0
                          eq_refl eq_refl eq_refl)
                  _ _ _) eq_refl).
  - right. split; reflexivity.
  - right. split; reflexivity.
  - right. split; reflexivity.
Defined.

(** X11.  On a 200 reply whose body is an object, the Google client reads
    the text off the first part of the first candidate, missing keys
    falling back on defaults: without a candidates key the text is the
    empty string; the value of the text key of the first part is returned
    as it is, the empty string when the part has none; an empty list of
    candidates, or an empty list of parts in the first candidate, makes
    the request raise [IndexError]. *)
Theorem google_reply_defaults (env : Client.Env) (self : LlmBase.t)
    (r : Http.Response) (items usage : list (string * Obj))
    (prompt answered thought : Z) :
  Client.posted env Google self = Ok (Http.Replied r) ->
  Http.status_code r = 200%Z ->
  Client.json_loads env (Http.text r) = Ok (PyDict items) ->
  (lookup "candidates" items = Some (PyList []) ->
   value (Client.request env Google self) = Raise IndexError)
  /\ (forall candidate candidates content,
        lookup "candidates" items = Some (PyList (PyDict candidate :: candidates)) ->
        lookup "content" candidate = Some (PyDict content) ->
        lookup "parts" content = Some (PyList []) ->
        value (Client.request env Google self) = Raise IndexError)
  /\ (Spec.usage_of "usageMetadata" items usage ->
      Spec.token "promptTokenCount" usage prompt ->
      Spec.token "candidatesTokenCount" usage answered ->
      Spec.token "thoughtsTokenCount" usage thought ->
      (lookup "candidates" items = None ->
       value (Client.request env Google self)
       = Ok (LlmResponse.Make 200 (PyStr "")
               (LlmTokens.Make (PyInt prompt) (PyInt (answered + thought)))))
      /\ (forall candidate candidates content part parts,
            lookup "candidates" items
            = Some (PyList (PyDict candidate :: candidates)) ->
            lookup "content" candidate = Some (PyDict content) ->
            lookup "parts" content = Some (PyList (PyDict part :: parts)) ->
            value (Client.request env Google self)
            = Ok (LlmResponse.Make 200
                    match lookup "text" part with
                    | Some v => v
                    | None => PyStr ""
                    end
                    (LlmTokens.Make (PyInt prompt) (PyInt (answered + thought)))))).
Proof.
  intros Hp Hc Hl. rewrite (request_posted _ _ _ _ Hp). simpl.
  unfold LlmGoogle.respond, LlmGoogle.on_reply. rewrite Hc, Hl.
  split; [| split].
  - intros H. cbn -[or add]. now rewrite H.
  - intros candidate candidates content H1 H2 H3. cbn -[or add].
    rewrite H1. cbn -[or add]. rewrite H2. cbn -[or add]. now rewrite H3.
  - intros H5 H6 H7 H8. apply usage_get in H5.
    apply token_or in H6 as (v6 & G6 & O6), H7 as (v7 & G7 & O7),
      H8 as (v8 & G8 & O8).
    cbn -[get or add]. rewrite H5. cbn -[get or add]. rewrite G6, G7, G8.
    split.
    + intros H. cbn -[or add]. rewrite H. cbn -[or add].
      now rewrite O6, O7, O8.
    + intros candidate candidates content part parts H1 H2 H3. cbn -[or add].
      rewrite H1. cbn -[or add]. rewrite H2. cbn -[or add]. rewrite H3.
      cbn -[or add]. destruct (lookup "text" part); cbn -[or add];
        now rewrite O6, O7, O8.
Qed.

(** A body that is the empty object: empty text, no tokens. *)
Lemma google_reply_defaults_witness :
  value (Client.request
           (Behaviour.env (Http.Replied (Http.MkResponse 200 "{}")))
           Google (Fixtures.client [Fixtures.turn "user" "test"] []))
  = Ok (LlmResponse.Make 200 (PyStr "") (LlmTokens.Make (PyInt 0) (PyInt 0))).
Proof.
  refine (proj1 (proj2 (proj2 (google_reply_defaults
                                 (Behaviour.env
                                    (Http.Replied (Http.MkResponse 200 "{}")))
                                 (Fixtures.client [Fixtures.turn "user" "test"] [])
                                 (Http.MkResponse 200 "{}") [] [] 0 0 0
                                 eq_refl eq_refl eq_refl))
                  _ _ _ _) eq_refl).
  - right. split; reflexivity.
  - right. split; reflexivity.
  - right. split; reflexivity.
  - right. split; reflexivity.
Defined.

Lemma HTTPStatus_ok code code' :
  HTTPStatus code = Ok code' -> code' = code /\ is_HTTPStatus code = true.
Proof.
  unfold HTTPStatus. destruct (is_HTTPStatus code); [| discriminate].
  now intros [= <-].
Qed.

Ltac through_binds H :=
  repeat (apply bind_ok in H; destruct H as (? & ? & H)).

(** What a request of the Anthropic or of the Google client returns. *)
Lemma respond_result env vendor outcome res :
  vendor <> Openai ->
  Client.respond env vendor outcome = Ok res ->
  is_HTTPStatus (LlmResponse.code res) = true
  /\ (LlmResponse.code res <> 200%Z ->
      LlmResponse.tokens res = no_tokens
      /\ exists text, LlmResponse.response res = PyStr text).
Proof.
  intros Hv H.
  destruct vendor; [| | now destruct Hv]; simpl in H;
    unfold LlmAnthropic.respond, LlmGoogle.respond in H;
    apply bind_ok in H as ([[code response] tokens] & Hr & H);
    apply bind_ok in H as (code' & Hc & H);
    apply HTTPStatus_ok in Hc as [-> Hm]; injection H as <-; simpl;
    (split; [exact Hm |]); intros Hne;
    destruct outcome as [r | e].
  - unfold LlmAnthropic.on_reply in Hr.
    destruct (Http.status_code r =? OK)%Z eqn:C.
    + through_binds Hr. injection Hr as <- _ _.
      apply Z.eqb_eq in C. now destruct Hne.
    + injection Hr as _ <- <-. split; [reflexivity | eauto].
  - unfold LlmAnthropic.on_exception in Hr.
    destruct (Http.response e); injection Hr as _ <- <-;
      (split; [reflexivity | eauto]).
  - unfold LlmGoogle.on_reply in Hr.
    destruct (Http.status_code r =? OK)%Z eqn:C.
    + through_binds Hr. injection Hr as <- _ _.
      apply Z.eqb_eq in C. now destruct Hne.
    + injection Hr as _ <- <-. split; [reflexivity | eauto].
  - unfold LlmGoogle.on_exception in Hr.
    destruct (Http.response e); injection Hr as _ <- <-;
      (split; [reflexivity | eauto]).
Qed.

(** X12.  Whatever the transport answers, when a request of the
    Anthropic or of the Google client returns a result, its status is a
    member of [HTTPStatus], and unless that status is 200 its token
    counts are zero and its text is a string. *)
Theorem returned_result_shape (env : Client.Env) (vendor : Vendor)
    (self : LlmBase.t) (res : LlmResponse.t) :
  vendor <> Openai ->
  value (Client.request env vendor self) = Ok res ->
  is_HTTPStatus (LlmResponse.code res) = true
  /\ (LlmResponse.code res <> 200%Z ->
      LlmResponse.tokens res = no_tokens
      /\ exists text, LlmResponse.response res = PyStr text).
Proof.
  intros Hv H.
  destruct (Client.posted env vendor self) as [outcome | e] eqn:Hp.
  - rewrite (request_posted _ _ _ _ Hp) in H.
    now apply (respond_result env vendor outcome).
  - unfold Client.posted in Hp.
    destruct (value (Client.to_dict env vendor self)) as [data | e0] eqn:Hd;
      [discriminate Hp |].
    rewrite (request_not_built _ _ _ _ Hd) in H. discriminate H.
Qed.

(** The 404 of [test_request]: a member status, no tokens, the body. *)
Lemma returned_result_shape_witness :
  is_HTTPStatus 404 = true
  /\ (404%Z <> 200%Z ->
      no_tokens = no_tokens /\ exists text, PyStr "not found" = PyStr text).
Proof.
  refine (returned_result_shape
            (Fixtures.env Fixtures.resolver Fixtures.not_found) Anthropic
            (Fixtures.client [Fixtures.turn "user" "test"] [])
            (LlmResponse.Make 404 (PyStr "not found") no_tokens) _ eq_refl).
  discriminate.
Defined.
